(** * PyXtal's GULP calculator ([pyxtal/interface/gulp.py])

    A shallow embedding of the [GULP] class and of the two driver functions
    [single_optimize] and [optimize], with the properties of the input-deck
    writer, of the report scanner and of the run sequence.

    Conventions of the embedding:
    - a Python [str] is a [string]; its characters are the code points
      below 256;
    - Python exceptions are values of [exn], and fallible code returns a
      [result];
    - [float], [int(...)], float formatting, NumPy, ASE, pymatgen, the
      [pyxtal] and [Lattice] classes and the operating system are not part
      of the file under study: they are interfaces (type classes) of the
      development. *)

From Stdlib Require Import ZArith Ascii DecimalString.
From stdpp Require Import base list strings gmap.

Local Open Scope Z_scope.

(** ** Exceptions and results *)

Inductive exn : Set :=
| IndexError | ValueError | TypeError | NotImplementedError
| OSError | UnboundLocalError | LibraryError.

Inductive result (A : Type) : Type :=
| Raise (e : exn)
| Ok (a : A).
Arguments Raise {A} e.
Arguments Ok {A} a.

Global Instance result_ret : MRet result := λ A a, Ok a.
Global Instance result_bind : MBind result :=
  λ A B f m, match m with Raise e => Raise e | Ok a => f a end.
Global Instance result_fmap : FMap result :=
  λ A B f m, match m with Raise e => Raise e | Ok a => Ok (f a) end.

(** whether a result is a value, and the value (or [d]) *)
Definition is_ok {A} (r : result A) : bool :=
  match r with Ok _ => true | Raise _ => false end.
Definition get {A} (d : A) (r : result A) : A :=
  match r with Ok a => a | Raise _ => d end.

(** [or_raise e o]: the value of [o], or exception [e]. *)
Definition or_raise {A} (e : exn) (o : option A) : result A :=
  match o with Some a => Ok a | None => Raise e end.

(** [for x in l: ...] collecting results, stopping at the first exception. *)
Fixpoint mapR {A B} (f : A → result B) (l : list A) : result (list B) :=
  match l with
  | [] => Ok []
  | a :: l' => b ← f a; bs ← mapR f l'; Ok (b :: bs)
  end.

(** ** Python strings *)

Module Str.

(** [str.isspace] on one character; also the class [\s] of [re]. *)
Definition is_space (c : ascii) : bool :=
  let n := N_of_ascii c in
  (((9 <=? n) && (n <=? 13)) || ((28 <=? n) && (n <=? 32))
   || (n =? 133) || (n =? 160))%N.

Definition is_empty (s : string) : bool :=
  match s with EmptyString => true | _ => false end.

Definition flush (tok : string) : list string :=
  if is_empty tok then [] else [tok].

(** [s.split()]: the maximal runs of non-blank characters. [tok] is the
    run being read. *)
Fixpoint split_from (s tok : string) : list string :=
  match s with
  | EmptyString => flush tok
  | String c s' =>
      if is_space c then flush tok ++ split_from s' EmptyString
      else split_from s' (tok +:+ String c EmptyString)
  end.
Definition split (s : string) : list string := split_from s EmptyString.

Fixpoint starts_with (p s : string) : bool :=
  match p, s with
  | EmptyString, _ => true
  | String a p', String b s' => bool_decide (a = b) && starts_with p' s'
  | String _ _, EmptyString => false
  end.

(** [s.find(sub) != -1] *)
Fixpoint contains (s sub : string) : bool :=
  starts_with sub s ||
  match s with
  | EmptyString => false
  | String _ s' => contains s' sub
  end.

(** Slices [s[:n]], [s[n:]] and [s[a:b]] for indices that are not negative. *)
Fixpoint take (n : nat) (s : string) : string :=
  match n, s with
  | S n', String c s' => String c (take n' s')
  | _, _ => EmptyString
  end.
Fixpoint drop (n : nat) (s : string) : string :=
  match n, s with
  | S n', String _ s' => drop n' s'
  | _, _ => s
  end.
Definition slice (a b : nat) (s : string) : string := take (b - a) (drop a s).

(** [[i for i, e in enumerate(s, start) if e == c]] *)
Fixpoint indices_from (c : ascii) (s : string) (start : nat) : list nat :=
  match s with
  | EmptyString => []
  | String d s' =>
      (if bool_decide (d = c) then [start] else [])
        ++ indices_from c s' (S start)
  end.

(** ['{:4s}'.format(s)]: left-justified in a field of four. *)
Fixpoint spaces (n : nat) : string :=
  match n with O => EmptyString | S n' => String " " (spaces n') end.
Definition format_4s (s : string) : string :=
  s +:+ spaces (4 - String.length s).

(** ['{:d}'.format(z)] *)
Definition format_d (z : Z) : string := NilZero.string_of_int (Z.to_int z).

Fixpoint concat (l : list string) : string :=
  match l with
  | [] => EmptyString
  | s :: l' => s +:+ concat l'
  end.

End Str.

(** ** The regular expression of the energy line

    [re.match(r'\s*Total lattice energy\s*=\s*(\S+)\s*eV', line)]: a
    backtracking matcher in continuation-passing style; greedy quantifiers
    try the longest repetition first and give characters back one at a
    time, as [re] does. The answer is the text of group 1. *)

Module Re.

Definition cont := string → option string.

(** [cls*] followed by [k] *)
Fixpoint star (cls : ascii → bool) (k : cont) (s : string) : option string :=
  match s with
  | String c s' =>
      if cls c then
        match star cls k s' with
        | Some r => Some r
        | None => k s
        end
      else k s
  | EmptyString => k s
  end.

(** a literal followed by [k] *)
Fixpoint lit (l : string) (k : cont) (s : string) : option string :=
  match l with
  | EmptyString => k s
  | String a l' =>
      match s with
      | String b s' => if bool_decide (a = b) then lit l' k s' else None
      | EmptyString => None
      end
  end.

(** the group [(cls+)] followed by [k], which receives the group's text;
    [acc] is the part of the group already read. *)
Fixpoint plus_group (cls : ascii → bool) (k : string → cont)
    (acc s : string) : option string :=
  match s with
  | String c s' =>
      if cls c then
        let acc' := acc +:+ String c EmptyString in
        match plus_group cls k acc' s' with
        | Some r => Some r
        | None => k acc' s'
        end
      else None
  | EmptyString => None
  end.

Definition non_space (c : ascii) : bool := negb (Str.is_space c).

Definition total_lattice_energy (line : string) : option string :=
  star Str.is_space
    (lit "Total lattice energy"
      (star Str.is_space
        (lit "="
          (star Str.is_space
            (plus_group non_space
               (λ grp, star Str.is_space (lit "eV" (λ _, Some grp)))
               EmptyString)))))
    line.

End Re.

(** ** Interfaces to the code outside the file *)

(** Python's [float] and [int], and ASE's unit constants. [float_of_str]
    and [int_of_str] are [float(s)] and [int(s)]; [None] is a
    [ValueError]. *)
Class PyFloat := {
  float : Type;
  float_of_str : string → option float;
  int_of_str : string → option Z;
  float_of_int : Z → float;
  float_neg : float → float;
  float_add : float → float → float;
  float_mul : float → float → float;
  float_div : float → float → float;
  float_isnan : float → bool;
  format_12_6f : float → string;
  eV : float;
  Ang : float;
}.

(** A Python number: an [int] or a [float]. *)
Inductive num `{PyFloat} : Type :=
| NInt (z : Z)
| NFloat (x : float).

(** ASE, pymatgen, NumPy and the parts of PyXtal that [gulp.py] imports. *)
Class Libraries `{PyFloat} := {
  Atoms : Type;
  pyxtal : Type;
  Structure : Type;
  Lattice : Type;
  foreign : Type;
  pyxtal_to_ase : pyxtal → result Atoms;
  atoms_cell : Atoms → list (list float);
  get_scaled_positions : Atoms → list (list float);
  get_chemical_symbols : Atoms → list string;
  Lattice_from_matrix : list (list float) → result Lattice;
  Lattice_get_para_degree : Lattice → float * float * float * float * float * float;
  Lattice_matrix : Lattice → list (list float);
  pmg_Structure :
    list (list float) → list string → list (list float) → result Structure;
  pyxtal_from_seed : Structure → result pyxtal;
  (** whether [np.array] accepts rows of different lengths (it did, as an
      array of objects, before NumPy 1.24) *)
  np_ragged : bool;
}.

(** The operating system: the file operations the calculator performs. A
    failed operation raises and leaves the world as it was. *)
Class OS := {
  World : Type;
  os_path_exists : string → World → bool;
  os_makedirs : string → World → result World;
  file_write : string → string → World → result World;
  file_readlines : string → World → result (list string);
  os_system : string → World → World;
  os_remove : string → World → result World;
}.

(** The calls to the operating system, in the order they are made. *)
Inductive event : Type :=
| EvExists (path : string)
| EvMakedirs (path : string)
| EvWrite (path text : string)
| EvSystem (cmd : string)
| EvReadlines (path : string)
| EvRemove (path : string).

Definition nl : string := String "010" EmptyString.

(** ** The calculator *)

Section Calculator.
Context `{Float : PyFloat} `{Libs : !Libraries} `{Sys : OS}.

(** the argument [struc] of the constructor: any Python object *)
Inductive pyobj : Type :=
| PyxtalObj (p : pyxtal)
| AtomsObj (a : Atoms)
| NoneObj
| ForeignObj (o : foreign).

(** The attributes of a [GULP] object. [energy], [stress], [forces] and
    [positions] are [None] until they are set. *)
Record GULP : Type := mkGULP {
  lattice : Lattice;
  frac_coords : list (list float);
  sites : list string;
  structure : Atoms;
  label : string;
  ff : string;
  opt : string;
  exe : string;
  steps : Z;
  folder : string;
  input : string;
  output : string;
  dump : option string;
  iter : Z;
  energy : option num;
  stress : option (list float);
  forces : option (list (list float));
  positions : option (list (list float));
  optimized : bool;
  cputime : num;
  error : bool;
}.

(** Attribute assignments [self.x = v]. *)
Definition set_lattice (v : Lattice) (g : GULP) : GULP :=
  mkGULP v (frac_coords g) (sites g) (structure g) (label g) (ff g) (opt g)
    (exe g) (steps g) (folder g) (input g) (output g) (dump g) (iter g)
    (energy g) (stress g) (forces g) (positions g) (optimized g) (cputime g)
    (error g).
Definition set_frac_coords (v : list (list float)) (g : GULP) : GULP :=
  mkGULP (lattice g) v (sites g) (structure g) (label g) (ff g) (opt g)
    (exe g) (steps g) (folder g) (input g) (output g) (dump g) (iter g)
    (energy g) (stress g) (forces g) (positions g) (optimized g) (cputime g)
    (error g).
Definition set_iter (v : Z) (g : GULP) : GULP :=
  mkGULP (lattice g) (frac_coords g) (sites g) (structure g) (label g) (ff g)
    (opt g) (exe g) (steps g) (folder g) (input g) (output g) (dump g) v
    (energy g) (stress g) (forces g) (positions g) (optimized g) (cputime g)
    (error g).
Definition set_energy (v : option num) (g : GULP) : GULP :=
  mkGULP (lattice g) (frac_coords g) (sites g) (structure g) (label g) (ff g)
    (opt g) (exe g) (steps g) (folder g) (input g) (output g) (dump g)
    (iter g) v (stress g) (forces g) (positions g) (optimized g) (cputime g)
    (error g).
Definition set_stress (v : option (list float)) (g : GULP) : GULP :=
  mkGULP (lattice g) (frac_coords g) (sites g) (structure g) (label g) (ff g)
    (opt g) (exe g) (steps g) (folder g) (input g) (output g) (dump g)
    (iter g) (energy g) v (forces g) (positions g) (optimized g) (cputime g)
    (error g).
Definition set_forces (v : option (list (list float))) (g : GULP) : GULP :=
  mkGULP (lattice g) (frac_coords g) (sites g) (structure g) (label g) (ff g)
    (opt g) (exe g) (steps g) (folder g) (input g) (output g) (dump g)
    (iter g) (energy g) (stress g) v (positions g) (optimized g) (cputime g)
    (error g).
Definition set_optimized (v : bool) (g : GULP) : GULP :=
  mkGULP (lattice g) (frac_coords g) (sites g) (structure g) (label g) (ff g)
    (opt g) (exe g) (steps g) (folder g) (input g) (output g) (dump g)
    (iter g) (energy g) (stress g) (forces g) (positions g) v (cputime g)
    (error g).
Definition set_cputime (v : num) (g : GULP) : GULP :=
  mkGULP (lattice g) (frac_coords g) (sites g) (structure g) (label g) (ff g)
    (opt g) (exe g) (steps g) (folder g) (input g) (output g) (dump g)
    (iter g) (energy g) (stress g) (forces g) (positions g) (optimized g) v
    (error g).
Definition set_error (v : bool) (g : GULP) : GULP :=
  mkGULP (lattice g) (frac_coords g) (sites g) (structure g) (label g) (ff g)
    (opt g) (exe g) (steps g) (folder g) (input g) (output g) (dump g)
    (iter g) (energy g) (stress g) (forces g) (positions g) (optimized g)
    (cputime g) v.

(** *** Effects: the world and the trace of system calls *)

Definition IO (A : Type) : Type :=
  World * list event → result A * (World * list event).

Definition io_ret {A} (a : A) : IO A := λ s, (Ok a, s).
Definition io_bind {A B} (m : IO A) (f : A → IO B) : IO B :=
  λ s, match m s with
       | (Raise e, s') => (Raise e, s')
       | (Ok a, s') => f a s'
       end.
Definition io_raise {A} (e : exn) : IO A := λ s, (Raise e, s).
Definition io_lift {A} (r : result A) : IO A := λ s, (r, s).

Global Instance IO_ret : MRet IO := @io_ret.
Global Instance IO_bind : MBind IO := λ A B f m, io_bind m f.

(** a call that changes the world or raises *)
Definition io_call (ev : event) (f : World → result World) : IO unit :=
  λ '(w, tr), match f w with
              | Ok w' => (Ok tt, (w', tr ++ [ev]))
              | Raise e => (Raise e, (w, tr ++ [ev]))
              end.

Definition path_exists (p : string) : IO bool :=
  λ '(w, tr), (Ok (os_path_exists p w), (w, tr ++ [EvExists p])).
Definition makedirs (p : string) : IO unit :=
  io_call (EvMakedirs p) (os_makedirs p).
Definition write_file (p text : string) : IO unit :=
  io_call (EvWrite p text) (file_write p text).
Definition readlines (p : string) : IO (list string) :=
  λ '(w, tr), (file_readlines p w, (w, tr ++ [EvReadlines p])).
Definition system (cmd : string) : IO unit :=
  io_call (EvSystem cmd) (λ w, Ok (os_system cmd w)).
Definition remove (p : string) : IO unit :=
  io_call (EvRemove p) (os_remove p).

(** *** [GULP.__init__] *)

Definition init (struc : pyobj) (label path ff opt : string) (steps : Z)
    (exe input output : string) (dump : option string) : IO GULP :=
  struc ← match struc with
           | PyxtalObj p => a ← io_lift (pyxtal_to_ase p); io_ret (AtomsObj a)
           | _ => io_ret struc
           end;
  match struc with
  | AtomsObj a =>
      lat ← io_lift (Lattice_from_matrix (atoms_cell a));
      ex ← path_exists path;
      (if negb ex then makedirs path else io_ret tt);;
      io_ret
        {| lattice := lat;
           frac_coords := get_scaled_positions a;
           sites := get_chemical_symbols a;
           structure := a;
           label := label; ff := ff; opt := opt; exe := exe; steps := steps;
           folder := path;
           input := path +:+ "/" +:+ label +:+ input;
           output := path +:+ "/" +:+ label +:+ output;
           dump := dump;
           iter := 0; energy := None; stress := None; forces := None;
           positions := None; optimized := false; cputime := NInt 0;
           error := false |}
  | _ => io_raise NotImplementedError
  end.

(** *** [GULP.execute] and [GULP.clean] *)

Definition execute (g : GULP) : IO unit :=
  system (exe g +:+ "<" +:+ input g +:+ ">" +:+ output g).

Definition clean (g : GULP) : IO unit :=
  remove (input g);;
  remove (output g);;
  match dump g with
  | Some d => remove d
  | None => io_ret tt
  end.

(** *** [GULP.write]

    The input deck is the sequence of the strings passed to [f.write]. A
    formatting error stops the sequence; what was written before it stays
    in the file. *)

Definition first_line (g : GULP) : string :=
  if bool_decide (opt g = "conv") then
    "opti stress " +:+ opt g +:+ " conjugate nosymmetry" +:+ nl
  else if bool_decide (opt g = "single") then
    "grad conp stress" +:+ nl
  else
    "opti stress " +:+ opt g +:+ " conjugate nosymmetry" +:+ nl.

Definition cell_line (g : GULP) : string :=
  let '(a, b, c, alpha, beta, gamma) := Lattice_get_para_degree (lattice g) in
  format_12_6f a +:+ format_12_6f b +:+ format_12_6f c +:+
  format_12_6f alpha +:+ format_12_6f beta +:+ format_12_6f gamma +:+ nl.

(** ['{:4s} {:12.6f} {:12.6f} {:12.6f} core \n'.format(site, *coord)] *)
Definition site_line (coord : list float) (site : string) : result string :=
  x ← or_raise IndexError (coord !! 0%nat);
  y ← or_raise IndexError (coord !! 1%nat);
  z ← or_raise IndexError (coord !! 2%nat);
  Ok (Str.format_4s site +:+ " " +:+ format_12_6f x +:+ " " +:+
      format_12_6f y +:+ " " +:+ format_12_6f z +:+ " core " +:+ nl).

(** [for coord, site in zip(self.frac_coords, self.sites)] *)
Fixpoint site_lines (coords : list (list float)) (sites : list string)
    : list string * option exn :=
  match coords, sites with
  | coord :: coords', site :: sites' =>
      match site_line coord site with
      | Raise e => ([], Some e)
      | Ok l => let '(ls, e) := site_lines coords' sites' in (l :: ls, e)
      end
  | _, _ => ([], None)
  end.

(** [list(set(self.sites))]: the distinct symbols, in the order of the set *)
Definition species (g : GULP) : list string :=
  elements (list_to_set (sites g) : gset string).

Definition species_line (specie : string) : string :=
  Str.format_4s specie +:+ " core " +:+ Str.format_4s specie +:+ nl.

Definition maxcycle_line (g : GULP) : list string :=
  if bool_decide (opt g ≠ "single") then
    ["maxcycle " +:+ Str.format_d (steps g) +:+ nl]
  else [].

Definition dump_line (g : GULP) : list string :=
  match dump g with
  | Some d => ["output cif " +:+ d +:+ nl]
  | None => []
  end.

Definition deck_writes (g : GULP) : list string * option exn :=
  let head :=
    [first_line g; nl +:+ "cell" +:+ nl; cell_line g;
     nl +:+ "fractional" +:+ nl] in
  match site_lines (frac_coords g) (sites g) with
  | (ls, Some e) => (head ++ ls, Some e)
  | (ls, None) =>
      (head ++ ls
         ++ [nl +:+ "Species" +:+ nl]
         ++ map species_line (species g)
         ++ [nl +:+ "library " +:+ ff g +:+ nl; "ewald 10.0" +:+ nl]
         ++ maxcycle_line g
         ++ dump_line g,
       None)
  end.

Definition write (g : GULP) : IO unit :=
  let '(chunks, e) := deck_writes g in
  write_file (input g) (Str.concat chunks);;
  match e with
  | Some e => io_raise e
  | None => io_ret tt
  end.

(** *** [GULP.read]: the pieces of the scanner *)

Definition to_float (s : string) : result float :=
  or_raise ValueError (float_of_str s).
Definition to_int (s : string) : result Z :=
  or_raise ValueError (int_of_str s).

(** [np.isnan(x)]: a [TypeError] on [None] *)
Definition np_isnan (x : option num) : result bool :=
  match x with
  | None => Raise TypeError
  | Some (NInt _) => Ok false
  | Some (NFloat v) => Ok (float_isnan v)
  end.

Definition same_lengths (rows : list (list float)) : bool :=
  match rows with
  | [] => true
  | r :: rows' => forallb (λ r', bool_decide (length r' = length r)) rows'
  end.

(** [np.array(rows)] *)
Definition np_array (rows : list (list float)) : result (list (list float)) :=
  if same_lengths rows || np_ragged then Ok rows else Raise ValueError.

(** row [j] of the stress table: [lines[i+j+3].split()[1]] and [[3]] *)
Definition stress_row (lines : list string) (i j : nat) : result (float * float) :=
  l ← or_raise IndexError (lines !! (i + j + 3)%nat);
  var ← or_raise IndexError (Str.split l !! 1%nat);
  a ← to_float var;
  l ← or_raise IndexError (lines !! (i + j + 3)%nat);
  var ← or_raise IndexError (Str.split l !! 3%nat);
  b ← to_float var;
  Ok (a, b).

Definition read_stress (lines : list string) (i : nat) : result (list float) :=
  rows ← mapR (stress_row lines i) [0; 1; 2]%nat;
  Ok (map fst rows ++ map snd rows).

(** [[i+1 for i, e in enumerate(tok[1:]) if e == '-']]; in Python 3 the [i]
    of the comprehension is its own, the line index is untouched *)
Definition min_index (tok : string) : list nat :=
  Str.indices_from "-" (Str.drop 1 tok) 1.

(** The body of [for j in range(2)] at [j = 0]; the boolean says whether
    the loop was left by [break]. [g] has three entries. *)
Definition split_first (g : list string) : result (list string * bool) :=
  g0 ← or_raise IndexError (g !! 0%nat);
  match min_index g0 with
  | [] => Ok (g, false)
  | [m0] =>
      g1 ← or_raise IndexError (g !! 1%nat);
      Ok (<[0%nat := Str.take m0 g0]>
            (<[1%nat := Str.drop m0 g0]> (<[2%nat := g1]> g)), false)
  | m0 :: m1 :: _ =>
      Ok (<[0%nat := Str.take m0 g0]>
            (<[1%nat := Str.slice m0 m1 g0]>
               (<[2%nat := Str.drop m1 g0]> g)), true)
  end.

(** The body of the loop at [j = 1]. *)
Definition split_second (g : list string) : result (list string) :=
  g1 ← or_raise IndexError (g !! 1%nat);
  match min_index g1 with
  | [] => Ok g
  | m0 :: _ =>
      Ok (<[1%nat := Str.take m0 g1]> (<[2%nat := Str.drop m0 g1]> g))
  end.

Definition split_columns (g : list string) : result (list string) :=
  '(g, broke) ← split_first g;
  if broke : bool then Ok g else split_second g.

(** [-float(x) * eV / Ang] *)
Definition force_component (x : string) : result float :=
  v ← to_float x;
  Ok (float_div (float_mul (float_neg v) eV) Ang).

(** one atom line of the forces table *)
Definition force_row (line : string) : result (list float) :=
  let g := take 3 (drop 3 (Str.split line)) in
  let g := g ++ replicate (3 - length g) " " in
  g ← split_columns g;
  mapR force_component g.

(** one atom line of the table of fractional coordinates *)
Definition frac_row (line : string) : result (list float) :=
  let xyz := take 3 (drop 3 (Str.split line)) in
  XYZ ← mapR to_float xyz;
  or_raise IndexError (Str.split line !! 1%nat);;
  Ok XYZ.

(** [while True: s = s + 1; if lines[s].find("------------") != -1: break; ...]
    over [ls = lines[s+1:]] *)
Fixpoint table_rows (row : string → result (list float)) (ls : list string)
    : result (list (list float)) :=
  match ls with
  | [] => Raise IndexError
  | l :: ls' =>
      if Str.contains l "------------" then Ok []
      else r ← row l; rs ← table_rows row ls'; Ok (r :: rs)
  end.

Definition lattice_row (lines : list string) (j : nat) : result (list float) :=
  l ← or_raise IndexError (lines !! j);
  let temp := Str.split l in
  mapR (λ k, t ← or_raise IndexError (temp !! k); to_float t) [0; 1; 2]%nat.

Definition read_lattice (lines : list string) (i : nat) : result Lattice :=
  let s := (i + 2)%nat in
  lattice_vectors ← mapR (lattice_row lines) [s; s + 1; s + 2]%nat;
  Lattice_from_matrix lattice_vectors.

(** *** [GULP.read]: the scan

    The body of [for i, line in enumerate(lines)]. Every branch computes its
    value from [lines] and assigns one attribute as its last statement, so an
    exception leaves the object as it was before the line. *)
Definition read_line (lines : list string) (i : nat) (line : string)
    (g : GULP) : result GULP :=
  match Re.total_lattice_energy line with
  | Some group1 =>
      e ← to_float group1;
      Ok (set_energy (Some (NFloat e)) g)
  | None =>
  if Str.contains line "Job Finished" then
    Ok (set_optimized true g)
  else if Str.contains line "Total CPU time" then
    tok ← or_raise IndexError (last (Str.split line));
    t ← to_float tok;
    Ok (set_cputime (NFloat t) g)
  else if Str.contains line "Final stress tensor components" then
    stress ← read_stress lines i;
    Ok (set_stress (Some stress) g)
  else if Str.contains line "Final internal derivatives" then
    forces ← table_rows force_row (drop (i + 6) lines);
    forces ← np_array forces;
    Ok (set_forces (Some forces) g)
  else if Str.contains line " Cycle: " then
    tok ← or_raise IndexError (Str.split line !! 1%nat);
    n ← to_int tok;
    Ok (set_iter n g)
  else if Str.contains line "Final fractional coordinates of atoms" then
    positions ← table_rows frac_row (drop (i + 6) lines);
    positions ← np_array positions;
    Ok (set_frac_coords positions g)
  else if Str.contains line "Final Cartesian lattice vectors" then
    L ← read_lattice lines i;
    Ok (set_lattice L g)
  else Ok g
  end.

(** The loop over [rest = lines[i:]]: the object when the loop stops, and
    the exception that stopped it. *)
Fixpoint scan (lines : list string) (i : nat) (rest : list string) (g : GULP)
    : GULP * option exn :=
  match rest with
  | [] => (g, None)
  | line :: rest' =>
      match read_line lines i line g with
      | Raise e => (g, Some e)
      | Ok g' => scan lines (S i) rest' g'
      end
  end.

(** [self.error = True; self.energy = 100000] *)
Definition flag_error (g : GULP) : GULP :=
  set_energy (Some (NInt 100000)) (set_error true g).

(** The [try ... except] of [read], on the lines of the report. *)
Definition read_report (lines : list string) (g : GULP) : GULP :=
  match scan lines 0 lines g with
  | (g', Some _) => flag_error g'
  | (g', None) =>
      match np_isnan (energy g') with
      | Raise _ => flag_error g'
      | Ok true => flag_error g'
      | Ok false => g'
      end
  end.

Definition read (g : GULP) : IO GULP :=
  lines ← readlines (output g);
  io_ret (read_report lines g).

(** *** [GULP.run] *)

Definition run (g : GULP) (clean_up : bool) : IO GULP :=
  write g;;
  execute g;;
  g ← read g;
  (if clean_up then clean g else io_ret tt);;
  io_ret g.

(** *** [to_pymatgen], [to_pyxtal] and the drivers *)

Definition to_pymatgen (g : GULP) : result Structure :=
  pmg_Structure (Lattice_matrix (lattice g)) (sites g) (frac_coords g).

Definition to_pyxtal (g : GULP) : result pyxtal :=
  pmg ← to_pymatgen g;
  pyxtal_from_seed pmg.

(** a Python number addition [a + b] *)
Definition num_add (a b : num) : num :=
  match a, b with
  | NInt x, NInt y => NInt (x + y)
  | NInt x, NFloat y => NFloat (float_add (float_of_int x) y)
  | NFloat x, NInt y => NFloat (float_add x (float_of_int y))
  | NFloat x, NFloat y => NFloat (float_add x y)
  end.

(** the tuple [(struc, energy, time, error)] the drivers return *)
Definition outcome : Type := pyobj * option num * num * bool.

Definition failure : outcome := (NoneObj, Some (NInt 100000), NInt 0, true).

Definition single_optimize (struc : pyobj) (ff opt exe path label : string)
    (clean_up : bool) : IO outcome :=
  calc ← init struc label path ff opt 1000 "gulp" "gulp.in" "gulp.log" None;
  calc ← run calc clean_up;
  if error calc then io_ret failure
  else
    s ← io_lift (to_pyxtal calc);
    io_ret (PyxtalObj s, energy calc, cputime calc, error calc).

(** The loop of [optimize]; [energy] is [None] while the variable is
    unbound. *)
Fixpoint optimize_loop (optimizations : list string) (ff exe path label : string)
    (struc : pyobj) (energy : option (option num)) (time_total : num)
    : IO outcome :=
  match optimizations with
  | [] =>
      match energy with
      | None => io_raise UnboundLocalError
      | Some energy => io_ret (struc, energy, time_total, false)
      end
  | opt :: optimizations' =>
      r ← single_optimize struc ff opt exe path label true;
      let '(struc, energy, time, error) := r in
      let time_total := num_add time_total time in
      if error : bool then io_ret failure
      else optimize_loop optimizations' ff exe path label struc (Some energy)
             time_total
  end.

Definition optimize (struc : pyobj) (ff : string) (optimizations : list string)
    (exe path label : string) (clean_up : bool) : IO outcome :=
  optimize_loop optimizations ff exe path label struc None (NInt 0).

(** *** Vocabulary of the properties *)

(** The branch of the scan a line takes: the first pattern of the
    [if ... elif] chain that it matches. *)
Inductive kind : Set :=
| KEnergy | KJobFinished | KCpuTime | KStress | KForces | KCycle
| KFracCoords | KLattice | KOther.

Global Instance kind_eq_dec : EqDecision kind.
Proof. solve_decision. Defined.

Definition line_kind (line : string) : kind :=
  if bool_decide (is_Some (Re.total_lattice_energy line)) then KEnergy
  else if Str.contains line "Job Finished" then KJobFinished
  else if Str.contains line "Total CPU time" then KCpuTime
  else if Str.contains line "Final stress tensor components" then KStress
  else if Str.contains line "Final internal derivatives" then KForces
  else if Str.contains line " Cycle: " then KCycle
  else if Str.contains line "Final fractional coordinates of atoms" then KFracCoords
  else if Str.contains line "Final Cartesian lattice vectors" then KLattice
  else KOther.

(** line [i] of the report is the last one of kind [K] *)
Definition last_of_kind (K : kind) (lines : list string) (i : nat)
    (line : string) : Prop :=
  lines !! i = Some line ∧ line_kind line = K ∧
  ∀ j l, (i < j)%nat → lines !! j = Some l → line_kind l ≠ K.

(** lines of kinds other than [K] leave the attribute [π] alone *)
Definition stable {A} (π : GULP → A) (K : kind) : Prop :=
  ∀ lines i line g g',
    line_kind line ≠ K → read_line lines i line g = Ok g' → π g' = π g.

(** [table_at lines s body]: from line [s] on, the report has the rows
    [body], none with a rule of dashes, and then a rule *)
Definition table_at (lines : list string) (s : nat) (body : list string)
    : Prop :=
  Forall (λ l, Str.contains l "------------" = false) body ∧
  ∃ d post, drop s lines = body ++ d :: post ∧
            Str.contains d "------------" = true.

(** a row of the coordinates table: tokens 3 to 5 are the floats [vals] *)
Definition coords_row (line : string) (vals : list float) : Prop :=
  ∃ t0 t1 t2 x y z rest vx vy vz,
    Str.split line = t0 :: t1 :: t2 :: x :: y :: z :: rest ∧
    float_of_str x = Some vx ∧ float_of_str y = Some vy ∧
    float_of_str z = Some vz ∧ vals = [vx; vy; vz].

(** a line of the lattice block: tokens 0 to 2 are the floats [vals] *)
Definition vector_row (line : string) (vals : list float) : Prop :=
  ∃ x y z rest vx vy vz,
    Str.split line = x :: y :: z :: rest ∧
    float_of_str x = Some vx ∧ float_of_str y = Some vy ∧
    float_of_str z = Some vz ∧ vals = [vx; vy; vz].

(** the three lines from line [s] on hold the rows of the matrix [m] *)
Definition matrix_at (lines : list string) (s : nat) (m : list (list float))
    : Prop :=
  ∃ l0 l1 l2 v0 v1 v2,
    lines !! s = Some l0 ∧ lines !! (s + 1)%nat = Some l1 ∧
    lines !! (s + 2)%nat = Some l2 ∧
    vector_row l0 v0 ∧ vector_row l1 v1 ∧ vector_row l2 v2 ∧
    m = [v0; v1; v2].

(** A numeric field of a fixed-point table: not empty, and no minus sign
    after its first character. *)
Definition field (x : string) : Prop := x ≠ EmptyString ∧ min_index x = [].

Definition negative (x : string) : Prop := ∃ x', x = String "-" x'.

(** [columns x y z cols]: the tokens [cols] after the first three of an atom
    line hold the fields [x], [y], [z]; a field that begins with a minus
    sign may abut the field before it, the two making one token. *)
Inductive columns (x y z : string) : list string → Prop :=
| columns_apart rest : columns x y z (x :: y :: z :: rest)
| columns_xy rest : negative y → columns x y z ((x +:+ y) :: z :: rest)
| columns_yz rest : negative z → columns x y z (x :: (y +:+ z) :: rest)
| columns_xyz rest :
    negative y → negative z → columns x y z ((x +:+ y +:+ z) :: rest).

(** [-v * eV / Ang] *)
Definition to_force (v : float) : float :=
  float_div (float_mul (float_neg v) eV) Ang.

(** an atom line of the forces table with the components [vals] *)
Definition force_line (line : string) (vals : list float) : Prop :=
  ∃ t0 t1 t2 cols x y z vx vy vz,
    Str.split line = t0 :: t1 :: t2 :: cols ∧ columns x y z cols ∧
    field x ∧ field y ∧ field z ∧
    float_of_str x = Some vx ∧ float_of_str y = Some vy ∧
    float_of_str z = Some vz ∧
    vals = [to_force vx; to_force vy; to_force vz].

(** every row of coordinates has its three entries *)
Definition well_shaped (g : GULP) : Prop :=
  Forall (λ r : list float, (3 ≤ length r)%nat) (frac_coords g).

(** the line of a site in the 'fractional' block *)
Definition site_text (site : string) (x y z : float) : string :=
  Str.format_4s site +:+ " " +:+ format_12_6f x +:+ " " +:+
  format_12_6f y +:+ " " +:+ format_12_6f z +:+ " core " +:+ nl.

(** the text of the input deck, the command line, and the system calls of
    a complete [run] *)
Definition deck_text (g : GULP) : string := Str.concat (deck_writes g).1.
Definition command (g : GULP) : string :=
  exe g +:+ "<" +:+ input g +:+ ">" +:+ output g.
Definition removals (g : GULP) : list event :=
  [EvRemove (input g); EvRemove (output g)]
    ++ match dump g with Some d => [EvRemove d] | None => [] end.
Definition run_calls (g : GULP) (clean_up : bool) : list event :=
  [EvWrite (input g) (deck_text g); EvSystem (command g);
   EvReadlines (output g)]
    ++ (if clean_up then removals g else []).

(** the number of invocations of the shell among system calls *)
Fixpoint invocations (calls : list event) : nat :=
  match calls with
  | [] => 0
  | EvSystem _ :: calls' => S (invocations calls')
  | _ :: calls' => invocations calls'
  end.

(** the components of the tuple the drivers return *)
Definition out_struc (o : outcome) : pyobj := o.1.1.1.
Definition out_energy (o : outcome) : option num := o.1.1.2.
Definition out_time (o : outcome) : num := o.1.2.
Definition out_error (o : outcome) : bool := o.2.

(** [stages ff exe path label opts struc s os s']: from the state [s],
    [single_optimize] applied once per entry of [opts], in order, each
    stage receiving the structure the stage before it returned, returns the
    tuples [os], none with an error, and leaves the state [s']. *)
Inductive stages (ff exe path label : string) :
    list string → pyobj → World * list event →
    list outcome → World * list event → Prop :=
| stages_nil struc s : stages ff exe path label [] struc s [] s
| stages_cons opt opts struc s o s' os s'' :
    single_optimize struc ff opt exe path label true s = (Ok o, s') →
    out_error o = false →
    stages ff exe path label opts (out_struc o) s' os s'' →
    stages ff exe path label (opt :: opts) struc s (o :: os) s''.

(** the structure handed to the stage that follows the stages [os] *)
Definition handed_on (struc : pyobj) (os : list outcome) : pyobj :=
  match last os with
  | Some o => out_struc o
  | None => struc
  end.

(** the arguments of [__init__] that it accepts *)
Definition accepted (struc : pyobj) : bool :=
  match struc with
  | PyxtalObj _ | AtomsObj _ => true
  | NoneObj | ForeignObj _ => false
  end.

(** the object when the scan stops, and whether an exception stopped it *)
Definition scanned (lines : list string) (g : GULP) : GULP :=
  (scan lines 0 lines g).1.
Definition scan_raised (lines : list string) (g : GULP) : bool :=
  bool_decide (is_Some (scan lines 0 lines g).2).

(** the energy is missing or not a number when [np.isnan] looks at it *)
Definition bad_energy (g : GULP) : bool :=
  match energy g with
  | None => true
  | Some (NInt _) => false
  | Some (NFloat v) => float_isnan v
  end.

(** *** Vocabulary of the further properties *)

(** the attributes [read] is not meant to touch *)
Definition configuration (g : GULP) :=
  (sites g, structure g, label g, ff g, opt g, exe g, steps g, folder g,
   input g, output g, dump g, positions g).

(** every character of [s] satisfies [p] *)
Fixpoint all_chars (p : ascii → bool) (s : string) : bool :=
  match s with
  | EmptyString => true
  | String c s' => p c && all_chars p s'
  end.

(** the command line of a calculator built by [single_optimize] *)
Definition default_command (path label : string) : string :=
  "gulp" +:+ "<" +:+ (path +:+ "/" +:+ label +:+ "gulp.in") +:+ ">" +:+
  (path +:+ "/" +:+ label +:+ "gulp.log").


End Calculator.

(** ** A small instance of the interfaces

    Used to run the calculator on a sample report: decimal numbers with six
    decimals stand for [float], a cell is a matrix, and the world is a table
    of files in which the executable leaves a fixed report. *)

Module Sample.

Inductive dec : Set :=
| DNaN
| DVal (millionths : Z).

Definition digit (c : ascii) : option Z := Z.of_nat <$> Ascii.is_nat c.

(** the leading digits of [s]: their value, their number, and the rest *)
Fixpoint read_digits (s : string) (acc : Z) (n : nat) : Z * nat * string :=
  match s with
  | String c s' =>
      match digit c with
      | Some d => read_digits s' (10 * acc + d) (S n)
      | None => (acc, n, s)
      end
  | EmptyString => (acc, n, s)
  end.

Definition unsigned_of_str (s : string) : option Z :=
  let '(ip, n1, r) := read_digits s 0 0 in
  match r with
  | EmptyString => if bool_decide (n1 = 0%nat) then None else Some (ip * 1000000)
  | String "." r' =>
      let '(fp, n2, r'') := read_digits r' 0 0 in
      if Str.is_empty r'' && bool_decide (0 < n1 + n2 ∧ n2 ≤ 6)%nat
      then Some (ip * 1000000 + fp * 10 ^ Z.of_nat (6 - n2))
      else None
  | _ => None
  end.

Definition dec_of_str (s : string) : option dec :=
  if bool_decide (s = "nan") then Some DNaN
  else match s with
       | String "-" s' => (λ v, DVal (- v)) <$> unsigned_of_str s'
       | _ => DVal <$> unsigned_of_str s
       end.

Definition Z_of_str (s : string) : option Z :=
  let digits s :=
    let '(v, n, r) := read_digits s 0 0 in
    if Str.is_empty r && bool_decide (0 < n)%nat then Some v else None in
  match s with
  | String "-" s' => Z.opp <$> digits s'
  | _ => digits s
  end.

Definition dec_map2 (f : Z → Z → Z) (a b : dec) : dec :=
  match a, b with
  | DVal x, DVal y => DVal (f x y)
  | _, _ => DNaN
  end.

Definition dec_div (a b : dec) : dec :=
  match a, b with
  | DVal x, DVal y =>
      if bool_decide (y = 0) then DNaN else DVal (x * 1000000 / y)
  | _, _ => DNaN
  end.

Definition rjust (n : nat) (s : string) : string :=
  Str.spaces (n - String.length s) +:+ s.

Definition format_dec (a : dec) : string :=
  match a with
  | DNaN => rjust 12 "nan"
  | DVal v =>
      let frac := Str.format_d (Z.abs v mod 1000000) in
      rjust 12
        ((if bool_decide (v < 0) then "-" else EmptyString) +:+
         Str.format_d (Z.abs v / 1000000) +:+ "." +:+
         String.string_of_list_ascii
           (replicate (6 - String.length frac) "0"%char) +:+ frac)
  end.

Definition dec_float : PyFloat := {|
  float := dec;
  float_of_str := dec_of_str;
  int_of_str := Z_of_str;
  float_of_int z := DVal (z * 1000000);
  float_neg a := match a with DVal v => DVal (- v) | DNaN => DNaN end;
  float_add := dec_map2 Z.add;
  float_mul := dec_map2 (λ x y, x * y / 1000000);
  float_div := dec_div;
  float_isnan a := match a with DNaN => true | DVal _ => false end;
  format_12_6f := format_dec;
  eV := DVal 1000000;
  Ang := DVal 1000000;
|}.
#[local] Existing Instance dec_float.

Record crystal : Type := mkCrystal {
  c_cell : list (list dec);
  c_scaled : list (list dec);
  c_symbols : list string;
}.

(** the cell parameters of a cell whose vectors lie along the axes *)
Definition para_of (m : list (list dec)) : dec * dec * dec * dec * dec * dec :=
  let at_ (i j : nat) := default DNaN (m !! i ≫= (.!! j)) in
  (at_ 0 0, at_ 1 1, at_ 2 2, DVal 90000000, DVal 90000000, DVal 90000000)%nat.

Definition libs : Libraries := {|
  Atoms := crystal;
  pyxtal := crystal;
  Structure := crystal;
  Lattice := list (list dec);
  foreign := string;
  pyxtal_to_ase := Ok;
  atoms_cell := c_cell;
  get_scaled_positions := c_scaled;
  get_chemical_symbols := c_symbols;
  Lattice_from_matrix := Ok;
  Lattice_get_para_degree := para_of;
  Lattice_matrix := id;
  pmg_Structure m s f := Ok (mkCrystal m f s);
  pyxtal_from_seed := Ok;
  np_ragged := false;
|}.
#[local] Existing Instance libs.

Record files : Type := mkFiles {
  dirs : gset string;
  texts : gmap string string;
}.

(** [f.readlines()]: the lines with their newline *)
Fixpoint lines_from (s cur : string) : list string :=
  match s with
  | EmptyString => Str.flush cur
  | String c s' =>
      if bool_decide (c = "010"%char)
      then (cur +:+ nl) :: lines_from s' EmptyString
      else lines_from s' (cur +:+ String c EmptyString)
  end.

(** the text before and after the first [c] *)
Fixpoint before (c : ascii) (s : string) : string :=
  match s with
  | EmptyString => EmptyString
  | String d s' => if bool_decide (d = c) then EmptyString else String d (before c s')
  end.
Fixpoint after (c : ascii) (s : string) : string :=
  match s with
  | EmptyString => EmptyString
  | String d s' => if bool_decide (d = c) then s' else after c s'
  end.

Definition rule : string :=
  "--------------------------------------------------------------------------------".

Definition report : list string :=
  [ "  Cycle:      0 Energy:       -61.955095  Gnorm:      0.170867  CPU:    0.015";
    "  Cycle:      1 Energy:       -61.960000  Gnorm:      0.000100  CPU:    0.020";
    "  Total lattice energy       =         -61.960000 eV";
    "  Total lattice energy       =       -5978.100000 kJ/(mole unit cells)";
    "  Final fractional coordinates of atoms :";
    EmptyString;
    rule;
    "   No.  Atomic        x           y          z          Radius";
    "        Label       (Frac)      (Frac)     (Frac)       (Angs)";
    rule;
    "     1  C     c     0.250000    0.250000    0.250000    0.000000";
    "     2  C     c     0.750000    0.750000    0.750000    0.000000";
    rule;
    "  Final Cartesian lattice vectors (Angstroms) :";
    EmptyString;
    "        3.500000    0.000000    0.000000";
    "        0.000000    3.600000    0.000000";
    "        0.000000    0.000000    3.700000";
    "  Final internal derivatives :";
    EmptyString;
    rule;
    "   No.  Atomic          a             b             c           Radius";
    "        Label          (eV)          (eV)          (eV)        (eV/Angs)";
    rule;
    "     1  C     c       0.100000-0.200000      0.300000      0.000000";
    "     2  C     c      -0.100000      0.200000-0.300000      0.000000";
    "     3  C     c       1.500000-2.500000-3.500000      0.000000";
    rule;
    "  Final stress tensor components (kbar):";
    EmptyString;
    rule;
    "       xx       1.000000    yz       4.000000";
    "       yy       2.000000    xz       5.000000";
    "       zz       3.000000    xy       6.000000";
    rule;
    "  Total CPU time       0.026200";
    "  Job Finished at 10:00.00 1st January 2021" ].

(** The stand-in for the executable reads [cmd = exe<input>output]: it
    leaves the report in the output file, and an empty file when the input
    is missing or asks for a constant-volume run. *)
Definition run_command (cmd : string) (w : files) : files :=
  let inp := before ">" (after "<" cmd) in
  let out := after ">" cmd in
  let text :=
    match texts w !! inp with
    | Some deck =>
        if Str.starts_with "opti stress conv" deck then EmptyString
        else Str.concat (map (λ l, l +:+ nl) report)
    | None => EmptyString
    end in
  mkFiles (dirs w) (<[out := text]> (texts w)).

Definition os : OS := {|
  World := files;
  os_path_exists p w :=
    bool_decide (p ∈ dirs w) || bool_decide (is_Some (texts w !! p));
  os_makedirs p w :=
    if Str.is_empty p then Raise OSError
    else Ok (mkFiles ({[p]} ∪ dirs w) (texts w));
  file_write p text w := Ok (mkFiles (dirs w) (<[p := text]> (texts w)));
  file_readlines p w :=
    match texts w !! p with
    | Some text => Ok (lines_from text EmptyString)
    | None => Raise OSError
    end;
  os_system := run_command;
  os_remove p w :=
    match texts w !! p with
    | Some _ => Ok (mkFiles (dirs w) (delete p (texts w)))
    | None => Raise OSError
    end;
|}.

#[local] Existing Instance os.

Definition diamond : crystal :=
  mkCrystal
    [[DVal 3500000; DVal 0; DVal 0]; [DVal 0; DVal 3500000; DVal 0];
     [DVal 0; DVal 0; DVal 3500000]]
    [[DVal 0; DVal 0; DVal 0]; [DVal 250000; DVal 250000; DVal 250000]]
    ["C"; "C"].

Definition empty_world : files := mkFiles ∅ ∅.

(** the calculator [GULP(diamond, ff='tersoff.lib')] as [__init__] leaves
    it, and the world once the folder exists *)
Definition calc : GULP :=
  {| lattice := c_cell diamond;
     frac_coords := c_scaled diamond;
     sites := c_symbols diamond;
     structure := diamond;
     label := "_"; ff := "tersoff.lib"; opt := "conp"; exe := "gulp";
     steps := 1000; folder := "tmp";
     input := "tmp/_gulp.in"; output := "tmp/_gulp.log"; dump := None;
     iter := 0; energy := None; stress := None; forces := None;
     positions := None; optimized := false; cputime := NInt 0;
     error := false |}.

Definition tmp_world : files := mkFiles {["tmp"]} ∅.

(** the states of the system before any call *)
Definition start : World * list event := (empty_world, []).
Definition start_tmp : World * list event := (tmp_world, []).

(** a Python string, which is not a structure *)
Definition a_string : pyobj := @ForeignObj dec_float libs "diamond".

(** the construction and the run of [single_optimize(diamond, 'tersoff.lib')],
    and the stages of [optimize] that follow it *)
Definition built : result GULP * (World * list event) :=
  init (AtomsObj diamond) "_" "tmp" "tersoff.lib" "conp" 1000 "gulp"
    "gulp.in" "gulp.log" None start.
Definition ran : result GULP * (World * list event) :=
  run (get calc built.1) true built.2.
Definition stage1 : result outcome * (World * list event) :=
  single_optimize (AtomsObj diamond) "tersoff.lib" "conp" "gulp" "tmp" "_"
    true start.
Definition stage2 : result outcome * (World * list event) :=
  single_optimize (out_struc (get failure stage1.1)) "tersoff.lib" "conp"
    "gulp" "tmp" "_" true stage1.2.
Definition stage2_conv : result outcome * (World * list event) :=
  single_optimize (handed_on (AtomsObj diamond) [get failure stage1.1])
    "tersoff.lib" "conv" "gulp" "tmp" "_" true stage1.2.

(** a report cut short: its CPU time is not a number *)
Definition broken_report : list string :=
  [ "  Total lattice energy       =         -61.960000 eV";
    "  Total CPU time       ********";
    "  Job Finished at 10:00.00 1st January 2021" ].

(** a forces table that the end of the report cuts *)
Definition unclosed_report : list string :=
  [ "  Final internal derivatives :";
    EmptyString;
    rule;
    "   No.  Atomic          a             b             c           Radius";
    "        Label          (eV)          (eV)          (eV)        (eV/Angs)";
    rule;
    "     1  C     c       0.100000     -0.200000      0.300000      0.000000" ].

(** a forces table whose second atom line holds a field of asterisks *)
Definition overflow_report : list string :=
  [ "  Final internal derivatives :";
    EmptyString;
    rule;
    "   No.  Atomic          a             b             c           Radius";
    "        Label          (eV)          (eV)          (eV)        (eV/Angs)";
    rule;
    "     1  C     c       0.100000     -0.200000      0.300000      0.000000";
    "     2  C     c       ********      0.200000      0.300000      0.000000";
    rule ].

(** a stress block that the end of the report cuts *)
Definition short_stress_report : list string :=
  [ "  Final stress tensor components (kbar):";
    EmptyString;
    rule;
    "       xx       1.000000    yz       4.000000" ].

(** a calculator whose second site has two coordinates *)
Definition short_calc : GULP :=
  set_frac_coords
    [[DVal 0; DVal 0; DVal 0]; [DVal 250000; DVal 250000]] calc.

(** two stages at constant pressure *)
Definition two_stages : result outcome * (World * list event) :=
  optimize (AtomsObj diamond) "tersoff.lib" ["conp"; "conp"] "gulp" "tmp" "_"
    true start.

(** a world in which the shell finds no executable and makes no file *)
Definition os_no_shell : OS := {|
  World := files;
  os_path_exists := @os_path_exists os;
  os_makedirs := @os_makedirs os;
  file_write := @file_write os;
  file_readlines := @file_readlines os;
  os_system cmd w := w;
  os_remove := @os_remove os;
|}.

(** a report whose lines carry two patterns at once: the energy line also
    says 'Job Finished', and the ' Cycle: ' line does not begin with it *)
Definition overlapping_report : list string :=
  [ "  Total lattice energy       =         -61.960000 eV  Job Finished";
    "  Step 12 Cycle: 5 Energy:       -61.960000" ].

End Sample.

(** * Properties *)

Section Properties.
Context `{Float : PyFloat} `{Libs : !Libraries} `{Sys : OS}.

(** ** Inversion of the monads *)

Lemma is_ok_get {A} (d : A) (r : result A) :
  is_ok r = true → r = Ok (get d r).
Proof. by destruct r. Qed.

Lemma returns_get {A S} (d : A) (r : result A * S) :
  is_ok r.1 = true → r = (Ok (get d r.1), r.2).
Proof. by destruct r as [[e|a] s]. Qed.

Lemma none_later_check (K : kind) (lines : list string) (i : nat) :
  forallb (λ l, bool_decide (line_kind l ≠ K)) (drop (S i) lines) = true →
  ∀ j l, (i < j)%nat → lines !! j = Some l → line_kind l ≠ K.
Proof.
  intros H j l Hj Hl. rewrite forallb_forall in H.
  assert (Hin : In l (drop (S i) lines)).
  { apply list_elem_of_In, list_elem_of_lookup.
    exists (j - S i)%nat. rewrite lookup_drop, <- Hl. f_equal. lia. }
  apply H in Hin. by apply bool_decide_eq_true in Hin.
Qed.


Lemma bind_Ok {A B} (m : result A) (f : A → result B) (b : B) :
  m ≫= f = Ok b → ∃ a, m = Ok a ∧ f a = Ok b.
Proof. destruct m as [e|a]; simpl; [discriminate|]. intros Hf. by exists a. Qed.

Lemma or_raise_Ok {A} (e : exn) (o : option A) (a : A) :
  or_raise e o = Ok a → o = Some a.
Proof. destruct o; simpl; congruence. Qed.

Lemma to_float_Ok (s : string) (v : float) :
  to_float s = Ok v → float_of_str s = Some v.
Proof. apply or_raise_Ok. Qed.

Lemma np_array_Ok (rows arr : list (list float)) :
  np_array rows = Ok arr → arr = rows.
Proof. unfold np_array. case (same_lengths rows || np_ragged); congruence. Qed.

Ltac io_unfold :=
  cbv [mbind mret IO_bind IO_ret io_bind io_ret io_lift io_raise io_call
       path_exists makedirs write_file readlines system remove] in *.

Ltac inv_result :=
  repeat match goal with
    | H : _ ≫= _ = Ok _ |- _ =>
        let a := fresh "a" in let Ha := fresh "Ha" in
        apply bind_Ok in H as (a & Ha & H)
    | H : or_raise _ _ = Ok _ |- _ => apply or_raise_Ok in H
    | H : to_float _ = Ok _ |- _ => apply to_float_Ok in H
    | H : to_int _ = Ok _ |- _ => apply or_raise_Ok in H
    | H : np_array _ = Ok _ |- _ => apply np_array_Ok in H; subst
    | H : Ok _ = Ok _ |- _ => injection H as H; subst
    | H : Raise _ = Ok _ |- _ => discriminate H
    end.

(** ** What one line of the report does *)

Lemma line_kind_energy line :
  line_kind line = KEnergy ↔ is_Some (Re.total_lattice_energy line).
Proof.
  unfold line_kind. destruct (Re.total_lattice_energy line); simpl.
  - split; [by eexists|done].
  - split; [|by intros [? ?]]. repeat case_match; discriminate.
Qed.

Lemma line_kind_job line :
  line_kind line = KJobFinished ↔
  Re.total_lattice_energy line = None ∧
  Str.contains line "Job Finished" = true.
Proof.
  unfold line_kind. destruct (Re.total_lattice_energy line); simpl.
  { split; [discriminate|]. intros [? _]. discriminate. }
  destruct (Str.contains line "Job Finished"); [done|].
  split; [|intros [_ ?]; discriminate]. repeat case_match; discriminate.
Qed.

Lemma read_line_inv lines i line g g' :
  read_line lines i line g = Ok g' →
  match line_kind line with
  | KEnergy =>
      ∃ tok v, Re.total_lattice_energy line = Some tok ∧
        float_of_str tok = Some v ∧ g' = set_energy (Some (NFloat v)) g
  | KJobFinished => g' = set_optimized true g
  | KCpuTime =>
      ∃ tok v, last (Str.split line) = Some tok ∧
        float_of_str tok = Some v ∧ g' = set_cputime (NFloat v) g
  | KStress => ∃ s, read_stress lines i = Ok s ∧ g' = set_stress (Some s) g
  | KForces =>
      ∃ rows, table_rows force_row (drop (i + 6) lines) = Ok rows ∧
        g' = set_forces (Some rows) g
  | KCycle =>
      ∃ tok n, Str.split line !! 1%nat = Some tok ∧
        int_of_str tok = Some n ∧ g' = set_iter n g
  | KFracCoords =>
      ∃ rows, table_rows frac_row (drop (i + 6) lines) = Ok rows ∧
        g' = set_frac_coords rows g
  | KLattice => ∃ L, read_lattice lines i = Ok L ∧ g' = set_lattice L g
  | KOther => g' = g
  end.
Proof.
  unfold read_line, line_kind.
  destruct (Re.total_lattice_energy line) as [tok|]; simpl.
  { intros H. inv_result. eauto. }
  repeat (case (Str.contains line _);
          [intros H; inv_result; eauto 6|]).
  by intros [= <-].
Qed.

Ltac stable_tac :=
  intros lines i line g g' HK H; apply read_line_inv in H;
  destruct (line_kind line); try congruence;
  repeat match goal with H : ∃ _, _ |- _ => destruct H as [? H] end;
  repeat match goal with H : _ ∧ _ |- _ => destruct H as [? H] end;
  subst; reflexivity.

Lemma stable_energy : stable energy KEnergy.
Proof. stable_tac. Qed.
Lemma stable_cputime : stable cputime KCpuTime.
Proof. stable_tac. Qed.
Lemma stable_iter : stable iter KCycle.
Proof. stable_tac. Qed.
Lemma stable_optimized : stable optimized KJobFinished.
Proof. stable_tac. Qed.
Lemma stable_stress : stable stress KStress.
Proof. stable_tac. Qed.
Lemma stable_forces : stable forces KForces.
Proof. stable_tac. Qed.
Lemma stable_frac_coords : stable frac_coords KFracCoords.
Proof. stable_tac. Qed.
Lemma stable_lattice : stable lattice KLattice.
Proof. stable_tac. Qed.

(** no line touches the error flag: it is [stable] for every kind *)
Lemma read_line_error lines i line g g' :
  read_line lines i line g = Ok g' → error g' = error g.
Proof.
  intros H. apply read_line_inv in H. destruct (line_kind line);
  repeat match goal with H : ∃ _, _ |- _ => destruct H as [? H] end;
  repeat match goal with H : _ ∧ _ |- _ => destruct H as [? H] end;
  subst; reflexivity.
Qed.

(** ** The scan as a whole *)

Lemma scan_error lines rest : ∀ i g g' r,
  scan lines i rest g = (g', r) → error g' = error g.
Proof.
  induction rest as [|line rest IH]; simpl; intros i g g' r H.
  - by injection H as <- _.
  - destruct (read_line lines i line g) as [e|g1] eqn:E.
    + by injection H as <- _.
    + apply IH in H. rewrite H. eauto using read_line_error.
Qed.

Lemma scan_stable {A} (π : GULP → A) K lines rest :
  stable π K → ∀ i g g' r,
  Forall (λ l, line_kind l ≠ K) rest →
  scan lines i rest g = (g', r) → π g' = π g.
Proof.
  intros Hst. induction rest as [|line rest IH]; simpl; intros i g g' r HF H.
  - by injection H as <- _.
  - inversion HF as [|? ? Hl HF']; subst.
    destruct (read_line lines i line g) as [e|g1] eqn:E.
    + by injection H as <- _.
    + apply IH in H; [|done]. rewrite H. eapply Hst; eauto.
Qed.

(** a scan that is not interrupted went through each of its lines *)
Lemma scan_middle lines pre line post : ∀ i g g',
  scan lines i (pre ++ line :: post) g = (g', None) →
  ∃ g1 g2, read_line lines (i + length pre) line g1 = Ok g2 ∧
           scan lines (S (i + length pre)) post g2 = (g', None).
Proof.
  induction pre as [|l pre IH]; simpl; intros i g g' H.
  - destruct (read_line lines i line g) as [e|g1] eqn:E; [discriminate|].
    exists g, g1. by rewrite Nat.add_0_r.
  - destruct (read_line lines i l g) as [e|g1] eqn:E; [discriminate|].
    apply IH in H as (g2 & g3 & H2 & H3).
    exists g2, g3. by rewrite <- Nat.add_succ_comm.
Qed.

(** the attribute after the scan is the one the last line of its kind left *)
Lemma scan_last {A} (π : GULP → A) K lines i line g g' :
  stable π K → last_of_kind K lines i line →
  scan lines 0 lines g = (g', None) →
  ∃ g1 g2, read_line lines i line g1 = Ok g2 ∧ π g' = π g2.
Proof.
  intros Hst (Hi & HK & Hlast) H.
  rewrite <- (take_drop_middle lines i line Hi) in H at 2.
  apply scan_middle in H as (g1 & g2 & H1 & H2). simpl in H1.
  rewrite length_take_le in H1 by (apply Nat.lt_le_incl; eauto using lookup_lt_Some).
  exists g1, g2. split; [done|].
  eapply scan_stable; [exact Hst| |exact H2].
  apply Forall_lookup. intros k l Hk. rewrite lookup_drop in Hk.
  eapply Hlast; [|exact Hk]. lia.
Qed.

Lemma scan_optimized lines rest : ∀ i g g',
  scan lines i rest g = (g', None) →
  optimized g' = true ↔
  optimized g = true ∨ ∃ line, line ∈ rest ∧ line_kind line = KJobFinished.
Proof.
  induction rest as [|line rest IH]; simpl; intros i g g' H.
  - injection H as <-. split; [by left|]. intros [?|(l & Hl & _)]; [done|].
    by apply elem_of_nil in Hl.
  - destruct (read_line lines i line g) as [e|g1] eqn:E; [discriminate|].
    apply IH in H. rewrite H. clear H IH.
    destruct (decide (line_kind line = KJobFinished)) as [HK|HK].
    + split; [|intros _; left].
      * intros _. right. exists line. split; [left|done].
      * apply read_line_inv in E. rewrite HK in E. by subst.
    + rewrite (stable_optimized _ _ _ _ _ HK E).
      split; (intros [?|(l & Hl & Hk)]; [by left|right]).
      * exists l. split; [by right|done].
      * exists l. split; [|done].
        apply elem_of_cons in Hl as [->|?]; [done|done].
Qed.

(** ** The [try ... except] of [read] *)

Lemma read_report_cases lines g :
  (scan_raised lines g = true ∨ bad_energy (scanned lines g) = true) ∧
    read_report lines g = flag_error (scanned lines g)
  ∨ (scan_raised lines g = false ∧ bad_energy (scanned lines g) = false ∧
     scan lines 0 lines g = (scanned lines g, None) ∧
     read_report lines g = scanned lines g).
Proof.
  unfold read_report, scan_raised, scanned, bad_energy.
  destruct (scan lines 0 lines g) as [g1 [e|]]; simpl.
  - left. by split; [left|].
  - destruct (energy g1) as [[z|v]|]; simpl.
    + right. by repeat split.
    + destruct (float_isnan v) eqn:E.
      * left. by split; [right|].
      * right. by repeat split.
    + left. by split; [right|].
Qed.

Lemma read_report_clean lines g :
  error g = false → error (read_report lines g) = false →
  scan lines 0 lines g = (read_report lines g, None) ∧
  bad_energy (read_report lines g) = false.
Proof.
  intros Hg H.
  destruct (read_report_cases lines g) as [[_ E]|(_ & Hb & Hs & E)].
  - rewrite E in H. discriminate H.
  - by rewrite E.
Qed.

Lemma read_stress_inv lines i s :
  read_stress lines i = Ok s →
  length s = 6%nat ∧
  ∀ j, (j < 3)%nat →
    ∃ row t1 t3 v1 v3,
      lines !! (i + j + 3)%nat = Some row ∧
      Str.split row !! 1%nat = Some t1 ∧ float_of_str t1 = Some v1 ∧
      Str.split row !! 3%nat = Some t3 ∧ float_of_str t3 = Some v3 ∧
      s !! j = Some v1 ∧ s !! (j + 3)%nat = Some v3.
Proof.
  unfold read_stress. simpl. unfold stress_row. intros H. inv_result.
  repeat match goal with
    | H1 : ?x = Some ?a, H2 : ?x = Some ?b |- _ =>
        rewrite H1 in H2; injection H2 as <-
    end.
  split; [done|]. intros j Hj.
  destruct j as [|[|[|j]]]; [| | |lia]; simpl; eauto 12.
Qed.

(** C8. [read] never raises on a report: when a line of the scan raises, or
    when the energy is missing ([np.isnan(None)] is a [TypeError]) or not
    a number after the scan, the handler sets [error] and the energy
    100000; otherwise the object is the one the scan left and [error] keeps
    its value ([False] since [__init__]). A report without any energy line,
    read by a calculator whose energy is still [None], is in the first
    case. Whenever the output file can be read, [read] returns. *)
Theorem read_error_handling lines g :
  (scan_raised lines g = true ∨ bad_energy (scanned lines g) = true →
     error (read_report lines g) = true ∧
     energy (read_report lines g) = Some (NInt 100000))
  ∧ (scan_raised lines g = false → bad_energy (scanned lines g) = false →
     read_report lines g = scanned lines g ∧
     error (read_report lines g) = error g)
  ∧ ((∀ line, line ∈ lines → Re.total_lattice_energy line = None) →
     energy g = None →
     bad_energy (scanned lines g) = true ∧
     error (read_report lines g) = true ∧
     energy (read_report lines g) = Some (NInt 100000))
  ∧ (∀ w tr, file_readlines (output g) w = Ok lines →
     read g (w, tr) =
       (Ok (read_report lines g), (w, tr ++ [EvReadlines (output g)]))).
Proof.
  assert (Hflag : ∀ g1, error (flag_error g1) = true ∧
                        energy (flag_error g1) = Some (NInt 100000)) by done.
  assert (Hbad : bad_energy (scanned lines g) = true →
                 read_report lines g = flag_error (scanned lines g)).
  { destruct (read_report_cases lines g) as [[_ E]|(_ & Hb & _)]; [done|].
    rewrite Hb. discriminate. }
  split; [|split; [|split]].
  4:{ intros w tr Hw. unfold read. io_unfold. by rewrite Hw. }
  - destruct (read_report_cases lines g) as [[_ E]|(Hr & Hb & _)].
    + rewrite E. intros _. apply Hflag.
    + rewrite Hr, Hb. by intros [?|?].
  - intros Hr Hb.
    destruct (read_report_cases lines g) as [[[?|?] _]|(_ & _ & Hs & E)];
      [congruence|congruence|].
    rewrite E. split; [done|]. eapply scan_error, Hs.
  - intros Hno Hg.
    assert (Hb : bad_energy (scanned lines g) = true).
    { unfold bad_energy, scanned.
      destruct (scan lines 0 lines g) as [g1 r] eqn:E. simpl.
      rewrite (scan_stable energy KEnergy lines lines stable_energy 0 g g1 r);
        [by rewrite Hg| |done].
      apply Forall_forall. intros l Hl. unfold line_kind.
      rewrite (Hno l Hl). simpl. repeat case_match; discriminate. }
    split; [done|]. rewrite (Hbad Hb). apply Hflag.
Qed.

(** C3. When [read] does not flag an error, the attributes it leaves are
    those of the report: [energy] is the float of group 1 of the last line
    that matches the energy pattern; [cputime] the float of the last token
    of the last 'Total CPU time' line; [iter] the integer at token 1 of the
    last ' Cycle: ' line, the token after 'Cycle:' when the line begins with
    it; [optimized] is true exactly when it was already or a 'Job Finished'
    line appears; [stress] has six components, [j] and [j+3] being the floats
    of tokens 1 and 3 of line [i+3+j] after the last stress header [i]. A
    line counts for the first pattern of the scan that it matches. *)
Theorem read_scalars lines g :
  error g = false → error (read_report lines g) = false →
  (∀ i line, last_of_kind KEnergy lines i line →
     ∃ tok v, Re.total_lattice_energy line = Some tok ∧
       float_of_str tok = Some v ∧
       energy (read_report lines g) = Some (NFloat v))
  ∧ (∀ i line, last_of_kind KCpuTime lines i line →
     ∃ tok v, last (Str.split line) = Some tok ∧ float_of_str tok = Some v ∧
       cputime (read_report lines g) = NFloat v)
  ∧ (∀ i line, last_of_kind KCycle lines i line →
     ∃ tok n, Str.split line !! 1%nat = Some tok ∧ int_of_str tok = Some n ∧
       iter (read_report lines g) = n ∧
       ∀ rest, Str.split line = "Cycle:" :: rest → head rest = Some tok)
  ∧ (optimized (read_report lines g) = true ↔
     optimized g = true ∨
     ∃ line, line ∈ lines ∧ Re.total_lattice_energy line = None ∧
             Str.contains line "Job Finished" = true)
  ∧ (∀ i line, last_of_kind KStress lines i line →
     ∃ s, stress (read_report lines g) = Some s ∧ length s = 6%nat ∧
       ∀ j, (j < 3)%nat →
         ∃ row t1 t3 v1 v3,
           lines !! (i + j + 3)%nat = Some row ∧
           Str.split row !! 1%nat = Some t1 ∧ float_of_str t1 = Some v1 ∧
           Str.split row !! 3%nat = Some t3 ∧ float_of_str t3 = Some v3 ∧
           s !! j = Some v1 ∧ s !! (j + 3)%nat = Some v3).
Proof.
  intros Hg Herr.
  destruct (read_report_clean lines g Hg Herr) as [Hs _].
  set (g' := read_report lines g) in *.
  repeat split.
  - intros i line Hl.
    destruct (scan_last energy _ _ _ _ _ _ stable_energy Hl Hs)
      as (g1 & g2 & H1 & ->).
    apply read_line_inv in H1. destruct Hl as (_ & HK & _). rewrite HK in H1.
    destruct H1 as (tok & v & ? & ? & ->). eauto.
  - intros i line Hl.
    destruct (scan_last cputime _ _ _ _ _ _ stable_cputime Hl Hs)
      as (g1 & g2 & H1 & ->).
    apply read_line_inv in H1. destruct Hl as (_ & HK & _). rewrite HK in H1.
    destruct H1 as (tok & v & ? & ? & ->). eauto.
  - intros i line Hl.
    destruct (scan_last iter _ _ _ _ _ _ stable_iter Hl Hs)
      as (g1 & g2 & H1 & ->).
    apply read_line_inv in H1. destruct Hl as (_ & HK & _). rewrite HK in H1.
    destruct H1 as (tok & n & Ht & ? & ->). exists tok, n.
    repeat split; try done.
    intros rest Hrest. rewrite Hrest in Ht. by destruct rest.
  - intros Ho. apply (scan_optimized _ _ _ _ _ Hs) in Ho as [?|(l & ? & Hl)];
      [by left|right]. exists l. by rewrite <- line_kind_job.
  - intros Ho. apply (scan_optimized _ _ _ _ _ Hs).
    destruct Ho as [?|(l & ? & Hl)]; [by left|right].
    exists l. by rewrite line_kind_job.
  - intros i line Hl.
    destruct (scan_last stress _ _ _ _ _ _ stable_stress Hl Hs)
      as (g1 & g2 & H1 & ->).
    apply read_line_inv in H1. destruct Hl as (_ & HK & _). rewrite HK in H1.
    destruct H1 as (s & H1 & ->). exists s.
    apply read_stress_inv in H1 as [? ?]. by repeat split.
Qed.

(** ** Tables *)

Lemma table_rows_ok row lines s body rows :
  table_at lines s body →
  Forall2 (λ l r, row l = Ok r) body rows →
  table_rows row (drop s lines) = Ok rows.
Proof.
  intros (Hbody & d & post & -> & Hd) Hrows.
  induction Hrows as [|l r body rows Hl _ IH]; simpl.
  - by rewrite Hd.
  - inversion Hbody as [|? ? Hno Hbody']; subst.
    rewrite Hno, Hl. simpl. by rewrite (IH Hbody').
Qed.

Lemma frac_row_ok line vals : coords_row line vals → frac_row line = Ok vals.
Proof.
  intros (t0 & t1 & t2 & x & y & z & rest & vx & vy & vz &
          Hs & Hx & Hy & Hz & ->).
  unfold frac_row, to_float. rewrite Hs. simpl. by rewrite Hx, Hy, Hz.
Qed.

Lemma lattice_row_ok lines j line vals :
  lines !! j = Some line → vector_row line vals →
  lattice_row lines j = Ok vals.
Proof.
  intros Hj (x & y & z & rest & vx & vy & vz & Hs & Hx & Hy & Hz & ->).
  unfold lattice_row, to_float. rewrite Hj. simpl. rewrite Hs. simpl.
  by rewrite Hx, Hy, Hz.
Qed.

Lemma np_array_three rows :
  Forall (λ r, length r = 3%nat) rows → np_array rows = Ok rows.
Proof.
  intros H. unfold np_array.
  assert (same_lengths rows = true) as ->; [|done].
  destruct H as [|r rows Hr H]; [done|]. simpl.
  apply forallb_forall. intros r' Hr'. apply bool_decide_eq_true.
  rewrite Hr. eapply Forall_forall in H; [exact H|]. by apply list_elem_of_In.
Qed.

Lemma line_kind_read_line lines i line g :
  match line_kind line with
  | KForces =>
      read_line lines i line g =
        (forces ← table_rows force_row (drop (i + 6) lines);
         forces ← np_array forces; Ok (set_forces (Some forces) g))
  | KFracCoords =>
      read_line lines i line g =
        (positions ← table_rows frac_row (drop (i + 6) lines);
         positions ← np_array positions; Ok (set_frac_coords positions g))
  | KLattice =>
      read_line lines i line g =
        (L ← read_lattice lines i; Ok (set_lattice L g))
  | _ => True
  end.
Proof.
  unfold line_kind, read_line.
  destruct (Re.total_lattice_energy line); simpl; [done|].
  repeat (case (Str.contains line _); [done|]). done.
Qed.

Lemma read_frac_coords_ok lines i header g body rows :
  line_kind header = KFracCoords →
  table_at lines (i + 6) body → Forall2 coords_row body rows →
  read_line lines i header g = Ok (set_frac_coords rows g).
Proof.
  intros HK Ht Hrows.
  pose proof (line_kind_read_line lines i header g) as Hr.
  rewrite HK in Hr. rewrite Hr.
  rewrite (table_rows_ok frac_row lines (i + 6) body rows Ht).
  2:{ eapply Forall2_impl; [exact Hrows|]. intros. by apply frac_row_ok. }
  simpl. rewrite np_array_three; [done|].
  clear Ht. induction Hrows as [|l r ? ? Hl _ IH]; constructor; [|done].
  destruct Hl as (? & ? & ? & ? & ? & ? & ? & ? & ? & ? & _ & _ & _ & _ & ->).
  done.
Qed.

Lemma read_lattice_ok lines i header g m L :
  line_kind header = KLattice →
  matrix_at lines (i + 2) m → Lattice_from_matrix m = Ok L →
  read_line lines i header g = Ok (set_lattice L g).
Proof.
  intros HK (l0 & l1 & l2 & v0 & v1 & v2 & H0 & H1 & H2 & R0 & R1 & R2 & ->) HL.
  pose proof (line_kind_read_line lines i header g) as Hr.
  rewrite HK in Hr. rewrite Hr. unfold read_lattice. simpl.
  rewrite (lattice_row_ok _ _ _ _ H0 R0). simpl.
  rewrite (lattice_row_ok _ _ _ _ H1 R1). simpl.
  rewrite (lattice_row_ok _ _ _ _ H2 R2). simpl.
  by rewrite HL.
Qed.

(** C4. In a report with a block 'Final fractional coordinates of atoms'
    (header at line [i], rows from line [i+6] up to a rule of dashes) and a
    block 'Final Cartesian lattice vectors' (header at line [k], matrix on
    lines [k+2] to [k+4]), the scan stores at the first header the floats
    of tokens 3 to 5 of each row as [frac_coords], and at the second the
    lattice built from the matrix; when these are the last such blocks and
    [read] flags no error, the calculator holds both afterwards. *)
Theorem read_geometry lines g i header body rows k header' m L :
  lines !! i = Some header → line_kind header = KFracCoords →
  table_at lines (i + 6) body → Forall2 coords_row body rows →
  lines !! k = Some header' → line_kind header' = KLattice →
  matrix_at lines (k + 2) m → Lattice_from_matrix m = Ok L →
  (∀ g1, read_line lines i header g1 = Ok (set_frac_coords rows g1)) ∧
  (∀ g1, read_line lines k header' g1 = Ok (set_lattice L g1)) ∧
  ((∀ j l, (i < j)%nat → lines !! j = Some l → line_kind l ≠ KFracCoords) →
   (∀ j l, (k < j)%nat → lines !! j = Some l → line_kind l ≠ KLattice) →
   error g = false → error (read_report lines g) = false →
   frac_coords (read_report lines g) = rows ∧
   lattice (read_report lines g) = L).
Proof.
  intros Hi HK Ht Hrows Hk HK' Hm HL.
  assert (Hf : ∀ g1, read_line lines i header g1 = Ok (set_frac_coords rows g1))
    by (intros; eapply read_frac_coords_ok; eauto).
  assert (Hl : ∀ g1, read_line lines k header' g1 = Ok (set_lattice L g1))
    by (intros; eapply read_lattice_ok; eauto).
  split; [done|]. split; [done|]. intros Hlast Hlast' Hg Herr.
  destruct (read_report_clean lines g Hg Herr) as [Hs _]. split.
  - destruct (scan_last frac_coords KFracCoords lines i header g _
                stable_frac_coords (conj Hi (conj HK Hlast)) Hs)
      as (g1 & g2 & Hr & ->).
    rewrite Hf in Hr. by injection Hr as <-.
  - destruct (scan_last lattice KLattice lines k header' g _
                stable_lattice (conj Hk (conj HK' Hlast')) Hs)
      as (g1 & g2 & Hr & ->).
    rewrite Hl in Hr. by injection Hr as <-.
Qed.

(** ** Minus signs inside a token *)

Lemma indices_from_nil_shift c s : ∀ k k',
  Str.indices_from c s k = [] → Str.indices_from c s k' = [].
Proof.
  induction s as [|d s IH]; simpl; intros k k'; [done|].
  case_bool_decide; [discriminate|]. simpl. apply IH.
Qed.

Lemma indices_from_app c s1 s2 : ∀ k,
  Str.indices_from c (s1 +:+ s2) k =
  Str.indices_from c s1 k ++ Str.indices_from c s2 (k + String.length s1).
Proof.
  induction s1 as [|d s1 IH]; simpl; intros k.
  - by rewrite Nat.add_0_r.
  - rewrite IH, <- app_assoc. by rewrite Nat.add_succ_r.
Qed.

Lemma take_app_length x y : Str.take (String.length x) (x +:+ y) = x.
Proof. induction x as [|c x IH]; simpl; [by destruct y|by rewrite IH]. Qed.

Lemma drop_app_length x y : Str.drop (String.length x) (x +:+ y) = y.
Proof. induction x as [|c x IH]; simpl; [by destruct y|done]. Qed.

Lemma indices_of_negative y k :
  field y → negative y → Str.indices_from "-" y k = [k].
Proof.
  intros [_ Hy] [y' ->]. unfold min_index in Hy. simpl in *.
  by rewrite (indices_from_nil_shift _ _ _ (S k) Hy).
Qed.

Lemma min_index_merged x y :
  field x → field y → negative y → min_index (x +:+ y) = [String.length x].
Proof.
  intros [Hne Hx] Hy Hn. destruct x as [|c x]; [done|].
  unfold min_index in *. simpl in *.
  rewrite indices_from_app, Hx. simpl. by apply indices_of_negative.
Qed.

Lemma min_index_merged3 x y z :
  field x → field y → field z → negative y → negative z →
  min_index (x +:+ y +:+ z) =
  [String.length x; (String.length x + String.length y)%nat].
Proof.
  intros [Hne Hx] Hy Hz Hny Hnz. destruct x as [|c x]; [done|].
  unfold min_index in *. simpl in *.
  rewrite !indices_from_app, Hx. simpl.
  by rewrite (indices_of_negative y), (indices_of_negative z).
Qed.

Lemma split_columns_ok x y z cols :
  columns x y z cols → field x → field y → field z →
  split_columns (take 3 cols ++ replicate (3 - length (take 3 cols)) " ")
  = Ok [x; y; z].
Proof.
  intros Hc Hx Hy Hz. pose proof Hx as [_ Hmx]. pose proof Hy as [_ Hmy].
  unfold split_columns, split_first, split_second.
  destruct Hc as [rest|rest Hn|rest Hn|rest Hny Hnz].
  - simpl. rewrite Hmx. simpl. by rewrite Hmy.
  - destruct rest as [|r rest]; simpl;
      rewrite (min_index_merged x y Hx Hy Hn); simpl;
      rewrite take_app_length, drop_app_length, Hmy; done.
  - destruct rest as [|r rest]; simpl; rewrite Hmx; simpl;
      rewrite (min_index_merged y z Hy Hz Hn); simpl;
      rewrite take_app_length, drop_app_length; done.
  - assert (Hsl : Str.slice (String.length x)
                    (String.length x + String.length y) (x +:+ y +:+ z) = y).
    { unfold Str.slice. rewrite drop_app_length.
      replace (String.length x + String.length y - String.length x)%nat
        with (String.length y) by lia.
      apply take_app_length. }
    assert (Hdr : Str.drop (String.length x + String.length y)
                    (x +:+ y +:+ z) = z).
    { clear. induction x as [|c x IH];
        [exact (drop_app_length y z)|exact IH]. }
    destruct rest as [|r1 [|r2 rest]]; simpl;
      rewrite (min_index_merged3 x y z Hx Hy Hz Hny Hnz); simpl;
      rewrite take_app_length, Hsl, Hdr; done.
Qed.

Lemma force_row_ok line vals : force_line line vals → force_row line = Ok vals.
Proof.
  intros (t0 & t1 & t2 & cols & x & y & z & vx & vy & vz &
          Hs & Hc & Hx & Hy & Hz & Fx & Fy & Fz & ->).
  unfold force_row. rewrite Hs.
  change (drop 3 (t0 :: t1 :: t2 :: cols)) with cols.
  rewrite (split_columns_ok x y z cols Hc Hx Hy Hz). simpl.
  unfold force_component, to_float. by rewrite Fx, Fy, Fz.
Qed.

Lemma force_line_three line vals : force_line line vals → length vals = 3%nat.
Proof.
  by intros (? & ? & ? & ? & ? & ? & ? & ? & ? & ? &
             _ & _ & _ & _ & _ & _ & _ & _ & ->).
Qed.

(** C1. A forces table: header 'Final internal derivatives' at line [i],
    atom lines from line [i+6] up to a rule of dashes. Whether the three
    fields of an atom line stand apart or a minus sign has merged two or all
    three of them into one token, the scan stores at the header one row per
    atom line, of exactly three components, each being [-float(field) * eV /
    Ang], in [forces]; when the table is the last one and [read] flags no
    error, these are the forces of the calculator afterwards. *)
Theorem read_forces lines g i header body rows :
  lines !! i = Some header → line_kind header = KForces →
  table_at lines (i + 6) body → Forall2 force_line body rows →
  (∀ g1, read_line lines i header g1 = Ok (set_forces (Some rows) g1)) ∧
  length rows = length body ∧
  Forall (λ r, length r = 3%nat) rows ∧
  ((∀ j l, (i < j)%nat → lines !! j = Some l → line_kind l ≠ KForces) →
   error g = false → error (read_report lines g) = false →
   forces (read_report lines g) = Some rows).
Proof.
  intros Hi HK Ht Hrows.
  assert (H3 : Forall (λ r, length r = 3%nat) rows).
  { clear Ht. induction Hrows; constructor; eauto using force_line_three. }
  assert (Hf : ∀ g1, read_line lines i header g1 = Ok (set_forces (Some rows) g1)).
  { intros g1. pose proof (line_kind_read_line lines i header g1) as Hr.
    rewrite HK in Hr. rewrite Hr.
    rewrite (table_rows_ok force_row lines (i + 6) body rows Ht).
    - simpl. by rewrite np_array_three.
    - eapply Forall2_impl; [exact Hrows|]. intros. by apply force_row_ok. }
  split; [done|]. split; [symmetry; eapply Forall2_length, Hrows|].
  split; [done|]. intros Hlast Hg Herr.
  destruct (read_report_clean lines g Hg Herr) as [Hs _].
  destruct (scan_last forces KForces lines i header g _
              stable_forces (conj Hi (conj HK Hlast)) Hs)
    as (g1 & g2 & Hr & ->).
  rewrite Hf in Hr. by injection Hr as <-.
Qed.

(** ** The input deck *)

Lemma site_lines_ok coords : ∀ sites,
  Forall (λ r : list float, (3 ≤ length r)%nat) coords →
  ∃ ls, site_lines coords sites = (ls, None) ∧
    length ls = (length coords `min` length sites)%nat ∧
    ∀ k site r, sites !! k = Some site → coords !! k = Some r →
      ∃ x y z, r !! 0%nat = Some x ∧ r !! 1%nat = Some y ∧
               r !! 2%nat = Some z ∧ ls !! k = Some (site_text site x y z).
Proof.
  induction coords as [|r coords IH]; intros sites Hc.
  - exists []. split; [done|]. split; [done|]. intros k site r _ Hr.
    by rewrite lookup_nil in Hr.
  - destruct sites as [|site sites].
    { exists []. split; [done|]. split; [simpl; lia|]. intros k s r' Hs.
      by rewrite lookup_nil in Hs. }
    inversion Hc as [|? ? Hr Hc']; subst.
    destruct (IH sites Hc') as (ls & Hls & Hlen & Hk).
    destruct r as [|x [|y [|z r]]]; simpl in Hr; try lia.
    exists (site_text site x y z :: ls). simpl. rewrite Hls.
    split; [done|]. split; [by rewrite Hlen|].
    intros [|k] s r'; simpl.
    + intros [= <-] [= <-]. by exists x, y, z.
    + apply Hk.
Qed.

(** C5. For a calculator whose rows of coordinates have their three
    entries, the strings [write] sends to the input file are, in this order:
    the keyword line; the 'cell' block with [a b c alpha beta gamma] in
    degrees, each in a [12.6f] field; the 'fractional' block, line [k] of
    which gives site [k], its three coordinates and 'core' (one line per
    site when there are as many rows as sites); the 'Species' block with one
    line for each distinct symbol of [sites]; 'library <ff>' and then
    'ewald 10.0'; and the closing directives. Their concatenation is the
    text written to the input file. *)
Theorem write_deck g :
  well_shaped g →
  ∃ site_ls sp,
    deck_writes g =
      ([first_line g; nl +:+ "cell" +:+ nl; cell_line g;
        nl +:+ "fractional" +:+ nl]
         ++ site_ls
         ++ [nl +:+ "Species" +:+ nl]
         ++ map species_line sp
         ++ [nl +:+ "library " +:+ ff g +:+ nl; "ewald 10.0" +:+ nl]
         ++ maxcycle_line g ++ dump_line g, None) ∧
    (∀ a b c alpha beta gamma,
       Lattice_get_para_degree (lattice g) = (a, b, c, alpha, beta, gamma) →
       cell_line g =
         format_12_6f a +:+ format_12_6f b +:+ format_12_6f c +:+
         format_12_6f alpha +:+ format_12_6f beta +:+ format_12_6f gamma +:+ nl) ∧
    length site_ls = (length (frac_coords g) `min` length (sites g))%nat ∧
    (length (frac_coords g) = length (sites g) →
       length site_ls = length (sites g)) ∧
    (∀ k site r, sites g !! k = Some site → frac_coords g !! k = Some r →
       ∃ x y z, r !! 0%nat = Some x ∧ r !! 1%nat = Some y ∧
                r !! 2%nat = Some z ∧
                site_ls !! k = Some (site_text site x y z)) ∧
    NoDup sp ∧ (∀ s, s ∈ sp ↔ s ∈ sites g) ∧
    (∀ specie, species_line specie =
       Str.format_4s specie +:+ " core " +:+ Str.format_4s specie +:+ nl) ∧
    (∀ w tr w',
       file_write (input g) (Str.concat (deck_writes g).1) w = Ok w' →
       write g (w, tr) =
         (Ok (), (w', tr ++ [EvWrite (input g) (Str.concat (deck_writes g).1)]))).
Proof.
  intros Hg.
  destruct (site_lines_ok (frac_coords g) (sites g) Hg) as (ls & Hls & Hlen & Hk).
  exists ls, (species g). unfold deck_writes. rewrite Hls.
  split; [done|]. split.
  { intros a b c alpha beta gamma Hp. unfold cell_line. by rewrite Hp. }
  split; [done|]. split; [intros E; rewrite Hlen, E; lia|].
  split; [done|]. split; [apply NoDup_elements|]. split.
  { intros s. unfold species. rewrite elem_of_elements, elem_of_list_to_set.
    done. }
  split; [done|]. intros w tr w'. unfold write, deck_writes. rewrite Hls.
  cbv [mbind IO_bind io_bind write_file io_call]. simpl. by intros ->.
Qed.


(** ** The constructor *)

(** C9. [__init__] raises [NotImplementedError], before any other effect,
    for an argument that is neither a [pyxtal] object nor an [Atoms]
    object. When it returns, the argument was one of the two (a [pyxtal]
    object having been converted by [to_ase]), and [energy], [stress],
    [forces] and [positions] are [None], [optimized] and [error] are
    [False], [iter] and [cputime] are 0. It does return when the conversion
    and the lattice succeed and the folder exists or can be made. *)
Theorem init_spec struc label path ff opt steps exe input output dump s :
  (accepted struc = false →
     init struc label path ff opt steps exe input output dump s
     = (Raise NotImplementedError, s)) ∧
  (∀ g s',
     init struc label path ff opt steps exe input output dump s = (Ok g, s') →
     accepted struc = true ∧
     (struc = AtomsObj (structure g) ∨
      ∃ p, struc = PyxtalObj p ∧ pyxtal_to_ase p = Ok (structure g)) ∧
     energy g = None ∧ stress g = None ∧ forces g = None ∧
     positions g = None ∧ optimized g = false ∧ error g = false ∧
     iter g = 0 ∧ cputime g = NInt 0) ∧
  (∀ a L,
     struc = AtomsObj a ∨ (∃ p, struc = PyxtalObj p ∧ pyxtal_to_ase p = Ok a) →
     Lattice_from_matrix (atoms_cell a) = Ok L →
     os_path_exists path s.1 = true ∨ (∃ w', os_makedirs path s.1 = Ok w') →
     ∃ g s',
       init struc label path ff opt steps exe input output dump s = (Ok g, s')).
Proof.
  destruct s as [w tr]. unfold init. split; [|split].
  - destruct struc; simpl; try discriminate; done.
  - intros g s'. destruct struc as [p|a| |o]; io_unfold; simpl;
      try discriminate.
    + destruct (pyxtal_to_ase p) as [e|a] eqn:Ep; [discriminate|].
      destruct (Lattice_from_matrix (atoms_cell a)); [discriminate|].
      destruct (os_path_exists path w); simpl.
      * intros [= <- <-]. repeat split; eauto.
      * destruct (os_makedirs path w); [discriminate|].
        intros [= <- <-]. repeat split; eauto.
    + destruct (Lattice_from_matrix (atoms_cell a)); [discriminate|].
      destruct (os_path_exists path w); simpl.
      * intros [= <- <-]. repeat split; eauto.
      * destruct (os_makedirs path w); [discriminate|].
        intros [= <- <-]. repeat split; eauto.
  - intros a L Hs HL Hdir. simpl in Hdir. io_unfold.
    destruct Hs as [->|(p & -> & Hp)]; [|rewrite Hp]; simpl; rewrite HL;
      (destruct (os_path_exists path w); simpl; [by eauto|];
       destruct Hdir as [?|[w' ->]]; [done|by eauto]).
Qed.

(** ** The run sequence *)

Lemma read_line_config lines i line g g' :
  read_line lines i line g = Ok g' →
  input g' = input g ∧ output g' = output g ∧ dump g' = dump g.
Proof.
  intros H. apply read_line_inv in H. destruct (line_kind line);
  repeat match goal with H : ∃ _, _ |- _ => destruct H as [? H] end;
  repeat match goal with H : _ ∧ _ |- _ => destruct H as [? H] end;
  by subst.
Qed.

Lemma scan_config lines rest : ∀ i g g' r,
  scan lines i rest g = (g', r) →
  input g' = input g ∧ output g' = output g ∧ dump g' = dump g.
Proof.
  induction rest as [|line rest IH]; simpl; intros i g g' r H.
  - by injection H as <- _.
  - destruct (read_line lines i line g) as [e|g1] eqn:E.
    + by injection H as <- _.
    + apply IH in H as (-> & -> & ->). eauto using read_line_config.
Qed.

Lemma read_report_config lines g :
  input (read_report lines g) = input g ∧
  output (read_report lines g) = output g ∧
  dump (read_report lines g) = dump g.
Proof.
  unfold read_report.
  destruct (scan lines 0 lines g) as [g1 r] eqn:E.
  apply scan_config in E.
  destruct r; [done|]. by destruct (np_isnan (energy g1)) as [|[|]].
Qed.

(** The system calls of a run are always an initial part of [run_calls]:
    all of it when the run returns, at least the first three once [write]
    has returned. *)
Lemma run_trace g clean_up w tr :
  ∃ k, (run g clean_up (w, tr)).2.2 = tr ++ take k (run_calls g clean_up) ∧
       (∀ g', (run g clean_up (w, tr)).1 = Ok g' →
          k = length (run_calls g clean_up)) ∧
       ((write g (w, tr)).1 = Ok () → (3 ≤ k)%nat) ∧
       ((write g (w, tr)).1 ≠ Ok () → k = 1%nat).
Proof.
  unfold run, run_calls, removals, deck_text, write, execute, read, clean,
    command.
  destruct (deck_writes g) as [chunks err]. io_unfold. simpl.
  destruct (file_write (input g) (Str.concat chunks) w) as [e|w1]; simpl.
  { exists 1%nat. by repeat split. }
  destruct err as [e|]; simpl.
  { exists 1%nat. by repeat split. }
  destruct (file_readlines (output g) _) as [e|lines]; simpl.
  { exists 3%nat. rewrite <- !app_assoc. repeat split; try done; lia. }
  destruct (read_report_config lines g) as (-> & -> & ->).
  destruct clean_up; simpl.
  2:{ exists 3%nat. rewrite <- !app_assoc. repeat split; try done; lia. }
  destruct (os_remove (input g) _) as [e|w2]; simpl.
  { exists 4%nat. rewrite <- !app_assoc. repeat split; try done; lia. }
  destruct (os_remove (output g) _) as [e|w3]; simpl.
  { exists 5%nat. rewrite <- !app_assoc. repeat split; try done; lia. }
  destruct (dump g) as [d|]; simpl.
  2:{ exists 5%nat. rewrite <- !app_assoc. repeat split; try done; lia. }
  destruct (os_remove d _) as [e|w4]; simpl;
    exists 6%nat; rewrite <- !app_assoc; repeat split; try done; lia.
Qed.

Lemma run_returns g clean_up w tr g' s' :
  run g clean_up (w, tr) = (Ok g', s') →
  ∃ w1 lines,
    file_write (input g) (deck_text g) w = Ok w1 ∧
    file_readlines (output g) (os_system (command g) w1) = Ok lines ∧
    g' = read_report lines g.
Proof.
  unfold run, deck_text, write, execute, read, clean, command.
  destruct (deck_writes g) as [chunks err]. io_unfold. simpl.
  destruct (file_write (input g) (Str.concat chunks) w) as [e|w1] eqn:Ew;
    simpl; [discriminate|].
  destruct err as [e|]; simpl; [discriminate|].
  destruct (file_readlines (output g) _) as [e|lines] eqn:Er; simpl;
    [discriminate|].
  intros H. exists w1, lines. split; [done|]. split; [done|].
  destruct clean_up; simpl in H; [|by injection H as <- _].
  repeat match type of H with
    | context [match ?x with _ => _ end] => destruct x; simpl in H
    end; try discriminate; by injection H as <- _.
Qed.

(** C2. The system calls of [run(clean)] are, in this order, the writing of
    the input deck, the invocation of the executable and the reading of the
    report, followed by the removal of the input file, of the output file
    and of the dump file if one was configured exactly when [clean] is
    true: an interrupted run makes an initial part of this sequence, a run
    that returns makes all of it, and the object it leaves is the one [read]
    parsed from the lines of the output file. *)
Theorem run_sequence (g : GULP) (clean_up : bool) w tr :
  let calls : list event :=
    [EvWrite (input g) (deck_text g); EvSystem (command g);
     EvReadlines (output g)]
      ++ (if clean_up
          then [EvRemove (input g); EvRemove (output g)]
                 ++ match dump g with Some d => [EvRemove d] | None => [] end
          else []) in
  (∃ k, (run g clean_up (w, tr)).2.2 = tr ++ take k calls) ∧
  (∀ g' s', run g clean_up (w, tr) = (Ok g', s') →
     s'.2 = tr ++ calls ∧
     ∃ w1 lines,
       file_write (input g) (deck_text g) w = Ok w1 ∧
       file_readlines (output g) (os_system (command g) w1) = Ok lines ∧
       g' = read_report lines g) ∧
  (∀ p, EvRemove p ∈ calls ↔
        clean_up = true ∧ (p = input g ∨ p = output g ∨ dump g = Some p)).
Proof.
  intros calls.
  destruct (run_trace g clean_up w tr) as (k & Hk & Hall & _).
  split; [by exists k|]. split.
  - intros g' s' H. split; [|by eapply run_returns].
    rewrite H in Hk, Hall. simpl in Hk. rewrite Hk, (Hall g' eq_refl).
    by rewrite firstn_all.
  - intros p. subst calls. simpl. rewrite !elem_of_cons.
    destruct clean_up, (dump g) as [d|]; simpl;
      rewrite ?elem_of_cons, ?elem_of_nil; intuition congruence.
Qed.

Lemma invocations_run_calls g clean_up k :
  invocations (take k (run_calls g clean_up)) = if decide (2 ≤ k)%nat then 1%nat else 0%nat.
Proof.
  unfold run_calls, removals.
  destruct k as [|[|[|k]]]; simpl; try done. f_equal.
  destruct clean_up; [|by rewrite take_nil].
  destruct k as [|[|k]]; simpl; try done.
  destruct (dump g); [|by rewrite take_nil].
  destruct k; simpl; [done|by rewrite take_nil].
Qed.

(** C7. Whatever happens, a [run] invokes the shell at most once; once
    [write] has returned it invokes it exactly once, by the one call
    [os.system(exe + '<' + input + '>' + output)], which comes after the
    writing of the deck and before the reading of the report; no other
    invocation follows. *)
Theorem run_invokes_once g clean_up w tr :
  ∃ calls,
    (run g clean_up (w, tr)).2.2 = tr ++ calls ∧
    (invocations calls ≤ 1)%nat ∧
    ((write g (w, tr)).1 = Ok () →
       invocations calls = 1%nat ∧
       ∃ rest,
         calls = EvWrite (input g) (deck_text g)
                   :: EvSystem (exe g +:+ "<" +:+ input g +:+ ">" +:+ output g)
                   :: EvReadlines (output g) :: rest ∧
         invocations rest = 0%nat).
Proof.
  destruct (run_trace g clean_up w tr) as (k & Hk & _ & H3 & _).
  exists (take k (run_calls g clean_up)). split; [done|].
  rewrite invocations_run_calls. split; [case_decide; lia|].
  intros Hw. specialize (H3 Hw). split; [case_decide; lia|].
  destruct k as [|[|[|k]]]; try lia.
  exists (take k (if clean_up then removals g else [])). split; [done|].
  pose proof (invocations_run_calls g clean_up (S (S (S k)))) as Hi.
  by injection Hi.
Qed.

(** ** The drivers *)

Lemma optimize_loop_stages ff exe path label opts struc s os s' :
  stages ff exe path label opts struc s os s' →
  ∀ rest energy time,
    optimize_loop (opts ++ rest) ff exe path label struc energy time s =
    optimize_loop rest ff exe path label (handed_on struc os)
      (match last os with
       | Some o => Some (out_energy o)
       | None => energy
       end)
      (fold_left num_add (map out_time os) time) s'.
Proof.
  induction 1 as [|opt opts struc s o s' os s'' Hso Herr _ IH];
    intros rest energy time; [done|].
  simpl. unfold mbind at 1, IO_bind, io_bind. rewrite Hso.
  destruct o as [[[st en] tm] er]. cbv beta iota.
  unfold out_error in Herr. simpl in Herr. subst er.
  rewrite IH. unfold handed_on. rewrite !last_cons.
  by destruct (last os).
Qed.

(** C10. [single_optimize] builds a calculator and runs it; when both
    return, it returns [(None, 100000, 0, True)] if the error flag of the
    calculator is set, and otherwise the structure converted to [pyxtal],
    the energy and the cputime of the calculator and [False]; so the
    failure tuple is returned exactly when the flag is set. [optimize]
    applies [single_optimize] once per entry of [optimizations], in order:
    if a stage reports an error after stages that did not, it returns
    [(None, 100000, 0, True)] at once; if no stage of a list that is not
    empty does, it returns the structure and energy of the last stage, the
    sum of the cputimes and [False]. *)
Theorem drivers_spec ff exe path label :
  (∀ struc opt clean_up s calc s1 calc' s2,
     init struc label path ff opt 1000 "gulp" "gulp.in" "gulp.log" None s
       = (Ok calc, s1) →
     run calc clean_up s1 = (Ok calc', s2) →
     (error calc' = true →
        single_optimize struc ff opt exe path label clean_up s
        = (Ok failure, s2)) ∧
     (∀ p, error calc' = false → to_pyxtal calc' = Ok p →
        single_optimize struc ff opt exe path label clean_up s
        = (Ok (PyxtalObj p, energy calc', cputime calc', false), s2)) ∧
     (∀ o s', single_optimize struc ff opt exe path label clean_up s
              = (Ok o, s') →
        (o = failure ↔ error calc' = true))) ∧
  (∀ struc pre opt post clean_up s os s' o s'',
     stages ff exe path label pre struc s os s' →
     single_optimize (handed_on struc os) ff opt exe path label true s'
       = (Ok o, s'') →
     out_error o = true →
     optimize struc ff (pre ++ opt :: post) exe path label clean_up s
     = (Ok failure, s'')) ∧
  (∀ struc opts clean_up s os s' o,
     stages ff exe path label opts struc s os s' →
     last os = Some o →
     optimize struc ff opts exe path label clean_up s
     = (Ok (out_struc o, out_energy o,
            fold_left num_add (map out_time os) (NInt 0), false), s')).
Proof.
  split; [|split].
  - intros struc opt clean_up s calc s1 calc' s2 Hinit Hrun.
    unfold single_optimize, mbind, IO_bind, io_bind, io_lift.
    rewrite Hinit. cbv beta iota. rewrite Hrun. cbv beta iota.
    split; [by intros ->|]. split.
    + intros p -> Hp. by rewrite Hp.
    + intros o s'. destruct (error calc') eqn:E.
      * by intros [= <- _].
      * destruct (to_pyxtal calc'); [discriminate|].
        intros [= <- _]. split; [|done]. unfold failure. discriminate.
  - intros struc pre opt post clean_up s os s' o s'' Hst Hso Herr.
    unfold optimize. rewrite (optimize_loop_stages _ _ _ _ _ _ _ _ _ Hst).
    simpl. unfold mbind at 1, IO_bind, io_bind. rewrite Hso.
    destruct o as [[[st en] tm] er]. cbv beta iota.
    unfold out_error in Herr. simpl in Herr. by subst er.
  - intros struc opts clean_up s os s' o Hst Hlast.
    unfold optimize. rewrite <- (app_nil_r opts).
    rewrite (optimize_loop_stages _ _ _ _ _ _ _ _ _ Hst).
    unfold handed_on. rewrite Hlast. done.
Qed.

(** With no stage at all, [energy] is unbound when [optimize] returns. *)
Lemma optimize_empty struc ff exe path label clean_up s :
  optimize struc ff [] exe path label clean_up s = (Raise UnboundLocalError, s).
Proof. done. Qed.

(** * Further properties *)

(** ** Reports that cannot be read to the end *)

Lemma scan_reaches lines pre line post : ∀ k g,
  (∀ g1, is_ok (read_line lines (k + length pre) line g1) = false) →
  is_Some (scan lines k (pre ++ line :: post) g).2.
Proof.
  induction pre as [|l pre IH]; simpl; intros k g Hbad.
  - specialize (Hbad g). rewrite Nat.add_0_r in Hbad.
    destruct (read_line lines k line g); [by eexists|discriminate].
  - destruct (read_line lines k l g) as [e|g1]; [by eexists|].
    apply IH. intros g2. rewrite Nat.add_succ_comm. apply Hbad.
Qed.

(** a line that no object can get past makes the whole read fail *)
Lemma raising_line_flags lines i line g :
  lines !! i = Some line →
  (∀ g1, is_ok (read_line lines i line g1) = false) →
  error (read_report lines g) = true ∧
  energy (read_report lines g) = Some (NInt 100000).
Proof.
  intros Hi Hbad.
  assert (Hr : scan_raised lines g = true).
  { unfold scan_raised. apply bool_decide_eq_true.
    rewrite <- (take_drop_middle lines i line Hi) at 2.
    apply scan_reaches. intros g1. simpl.
    rewrite length_take_le by (apply Nat.lt_le_incl; eauto using lookup_lt_Some).
    apply Hbad. }
  destruct (read_report_cases lines g) as [[_ ->]|(Hr' & _)]; [done|].
  congruence.
Qed.

Lemma table_rows_unclosed row ls :
  Forall (λ l, Str.contains l "------------" = false) ls →
  is_ok (table_rows row ls) = false.
Proof.
  induction 1 as [|l ls Hl _ IH]; simpl; [done|]. rewrite Hl.
  destruct (row l); simpl; [done|]. by destruct (table_rows row ls).
Qed.

(** X1. A forces table or a coordinates table that no rule of dashes closes
    (the report ends inside it) makes [read] flag an error, whatever the
    rest of the report holds: the loop over the rows runs off the end of
    the list. *)
Theorem unclosed_table_flagged lines g i header :
  lines !! i = Some header →
  line_kind header = KForces ∨ line_kind header = KFracCoords →
  Forall (λ l, Str.contains l "------------" = false) (drop (i + 6) lines) →
  error (read_report lines g) = true ∧
  energy (read_report lines g) = Some (NInt 100000).
Proof.
  intros Hi HK Hno. apply (raising_line_flags lines i header g Hi).
  intros g1. pose proof (line_kind_read_line lines i header g1) as Hr.
  destruct HK as [HK|HK]; rewrite HK in Hr; rewrite Hr.
  - pose proof (table_rows_unclosed force_row _ Hno).
    by destruct (table_rows force_row (drop (i + 6) lines)).
  - pose proof (table_rows_unclosed frac_row _ Hno).
    by destruct (table_rows frac_row (drop (i + 6) lines)).
Qed.

Lemma mapR_Ok {A B} (f : A → result B) l bs :
  mapR f l = Ok bs → Forall (λ a, is_ok (f a) = true) l.
Proof.
  revert bs. induction l as [|a l IH]; simpl; intros bs H; [constructor|].
  destruct (f a) eqn:E; simpl in H; [discriminate|].
  destruct (mapR f l); simpl in H; [discriminate|].
  constructor; [by rewrite E|by eapply IH].
Qed.

(** X2. A stress block needs the three lines [i+3] to [i+5] and a lattice
    block the three lines [i+2] to [i+4]: when the report ends before the
    last of them, [read] flags an error. *)
Theorem short_block_flagged lines g i header :
  lines !! i = Some header →
  (line_kind header = KStress ∧ (length lines ≤ i + 5)%nat) ∨
  (line_kind header = KLattice ∧ (length lines ≤ i + 4)%nat) →
  error (read_report lines g) = true ∧
  energy (read_report lines g) = Some (NInt 100000).
Proof.
  intros Hi HK. apply (raising_line_flags lines i header g Hi).
  intros g1. destruct (read_line lines i header g1) as [e|g2] eqn:E; [done|].
  apply read_line_inv in E. exfalso.
  destruct HK as [[HK Hlen]|[HK Hlen]]; rewrite HK in E.
  - destruct E as (s & Hs & _). apply read_stress_inv in Hs as [_ Hs].
    destruct (Hs 2%nat) as (row & _ & _ & _ & _ & Hrow & _); [lia|].
    apply lookup_lt_Some in Hrow. lia.
  - destruct E as (L & HL & _). unfold read_lattice in HL.
    apply bind_Ok in HL as (m & Hm & _). apply mapR_Ok in Hm.
    inversion Hm as [|? ? _ Hm1]; subst. inversion Hm1 as [|? ? _ Hm2]; subst.
    inversion Hm2 as [|? ? Hrow _]; subst. unfold lattice_row in Hrow.
    destruct (lines !! (i + 2 + 2)%nat) eqn:El; [|done].
    apply lookup_lt_Some in El. lia.
Qed.

(** ** What [read] keeps *)

Lemma read_line_configuration lines i line g g' :
  read_line lines i line g = Ok g' → configuration g' = configuration g.
Proof.
  intros H. apply read_line_inv in H. destruct (line_kind line);
  repeat match goal with H : ∃ _, _ |- _ => destruct H as [? H] end;
  repeat match goal with H : _ ∧ _ |- _ => destruct H as [? H] end;
  by subst.
Qed.

Lemma scan_configuration lines rest : ∀ i g g' r,
  scan lines i rest g = (g', r) → configuration g' = configuration g.
Proof.
  induction rest as [|line rest IH]; simpl; intros i g g' r H.
  - by injection H as <- _.
  - destruct (read_line lines i line g) as [e|g1] eqn:E.
    + by injection H as <- _.
    + apply IH in H. rewrite H. eauto using read_line_configuration.
Qed.

(** the report as [read] leaves it is the scanned object, flagged or not *)
Lemma read_report_scanned lines g :
  read_report lines g = scanned lines g ∨
  read_report lines g = flag_error (scanned lines g).
Proof.
  destruct (read_report_cases lines g) as [[_ ->]|(_ & _ & _ & ->)]; auto.
Qed.

(** X3. [read] changes none of [sites], [structure], [label], [ff], [opt],
    [exe], [steps], [folder], [input], [output], [dump] and [positions],
    whatever the report holds and whether or not it flags an error: the
    symbols of the sites stay those of the initial structure even when the
    coordinates are replaced. *)
Theorem read_keeps_configuration lines g :
  configuration (read_report lines g) = configuration g.
Proof.
  assert (Hs : configuration (scanned lines g) = configuration g).
  { unfold scanned. destruct (scan lines 0 lines g) as [g1 r] eqn:E.
    eapply scan_configuration, E. }
  by destruct (read_report_scanned lines g) as [-> | ->].
Qed.

Lemma scan_optimized_mono lines rest : ∀ i g g' r,
  scan lines i rest g = (g', r) → optimized g = true → optimized g' = true.
Proof.
  induction rest as [|line rest IH]; simpl; intros i g g' r H Hg.
  - by injection H as <- _.
  - destruct (read_line lines i line g) as [e|g1] eqn:E.
    + by injection H as <- _.
    + eapply IH; [exact H|]. apply read_line_inv in E.
      destruct (line_kind line);
      repeat match goal with H : ∃ _, _ |- _ => destruct H as [? H] end;
      repeat match goal with H : _ ∧ _ |- _ => destruct H as [? H] end;
      by subst.
Qed.

(** X4. [read] never resets a flag: [error] and [optimized], once true,
    stay true through any later read of the same object. And when a read
    turns [error] from false to true, it leaves the energy 100000. *)
Theorem read_flags_sticky lines g :
  (error g = true → error (read_report lines g) = true) ∧
  (optimized g = true → optimized (read_report lines g) = true) ∧
  (error g = false → error (read_report lines g) = true →
   energy (read_report lines g) = Some (NInt 100000)).
Proof.
  assert (He : error (scanned lines g) = error g).
  { unfold scanned. destruct (scan lines 0 lines g) as [g1 r] eqn:E.
    eapply scan_error, E. }
  split; [|split].
  - intros Hg. destruct (read_report_scanned lines g) as [-> | ->];
      [by rewrite He|done].
  - intros Hg.
    assert (Ho : optimized (scanned lines g) = true).
    { unfold scanned. destruct (scan lines 0 lines g) as [g1 r] eqn:E.
      eapply scan_optimized_mono; [exact E|exact Hg]. }
    by destruct (read_report_scanned lines g) as [-> | ->].
  - intros Hg. destruct (read_report_scanned lines g) as [-> | ->];
      [|done]. rewrite He, Hg. discriminate.
Qed.

Lemma scanned_stable {A} (π : GULP → A) K lines g :
  stable π K → (∀ l, l ∈ lines → line_kind l ≠ K) →
  π (scanned lines g) = π g.
Proof.
  intros Hst Hno. unfold scanned.
  destruct (scan lines 0 lines g) as [g1 r] eqn:E.
  eapply (scan_stable π K); [exact Hst| |exact E].
  apply Forall_forall. intros l Hl. by apply Hno.
Qed.

(** X5. An attribute whose block is absent from the report keeps the value
    it had (the initial [None], 0 or [False] for a new calculator), also
    when the read flags an error; for the energy, the value it had or
    100000. A single-point run, whose report has no final geometry, leaves
    the geometry untouched. *)
Theorem read_without_block lines g :
  ((∀ l, l ∈ lines → line_kind l ≠ KFracCoords) →
     frac_coords (read_report lines g) = frac_coords g) ∧
  ((∀ l, l ∈ lines → line_kind l ≠ KLattice) →
     lattice (read_report lines g) = lattice g) ∧
  ((∀ l, l ∈ lines → line_kind l ≠ KForces) →
     forces (read_report lines g) = forces g) ∧
  ((∀ l, l ∈ lines → line_kind l ≠ KStress) →
     stress (read_report lines g) = stress g) ∧
  ((∀ l, l ∈ lines → line_kind l ≠ KCycle) →
     iter (read_report lines g) = iter g) ∧
  ((∀ l, l ∈ lines → line_kind l ≠ KCpuTime) →
     cputime (read_report lines g) = cputime g) ∧
  ((∀ l, l ∈ lines → line_kind l ≠ KJobFinished) →
     optimized (read_report lines g) = optimized g) ∧
  ((∀ l, l ∈ lines → line_kind l ≠ KEnergy) →
     energy (read_report lines g) = energy g ∨
     energy (read_report lines g) = Some (NInt 100000)).
Proof.
  repeat split; intros Hno.
  - rewrite <- (scanned_stable frac_coords _ lines g stable_frac_coords Hno).
    by destruct (read_report_scanned lines g) as [-> | ->].
  - rewrite <- (scanned_stable lattice _ lines g stable_lattice Hno).
    by destruct (read_report_scanned lines g) as [-> | ->].
  - rewrite <- (scanned_stable forces _ lines g stable_forces Hno).
    by destruct (read_report_scanned lines g) as [-> | ->].
  - rewrite <- (scanned_stable stress _ lines g stable_stress Hno).
    by destruct (read_report_scanned lines g) as [-> | ->].
  - rewrite <- (scanned_stable iter _ lines g stable_iter Hno).
    by destruct (read_report_scanned lines g) as [-> | ->].
  - rewrite <- (scanned_stable cputime _ lines g stable_cputime Hno).
    by destruct (read_report_scanned lines g) as [-> | ->].
  - rewrite <- (scanned_stable optimized _ lines g stable_optimized Hno).
    by destruct (read_report_scanned lines g) as [-> | ->].
  - rewrite <- (scanned_stable energy _ lines g stable_energy Hno).
    destruct (read_report_scanned lines g) as [-> | ->]; [by left|by right].
Qed.

(** ** The splitting of merged columns, on any tokens *)

Lemma indices_from_first c s : ∀ k m rest,
  Str.indices_from c s k = m :: rest →
  (k ≤ m)%nat ∧ Str.indices_from c (Str.take (m - k) s) k = [] ∧
  ∃ t, Str.drop (m - k) s = String c t ∧ Str.indices_from c t (S m) = rest.
Proof.
  induction s as [|d s IH]; simpl; intros k m rest H; [discriminate|].
  case_bool_decide as Hd; simpl in H.
  - injection H as <- <-. rewrite Nat.sub_diag. simpl. subst d.
    split; [done|]. split; [done|]. by exists s.
  - apply IH in H as (Hle & Htake & t & Hdrop & Hrest).
    replace (m - k)%nat with (S (m - S k)) by lia. simpl.
    rewrite bool_decide_eq_false_2 by done. simpl.
    split; [lia|]. split; [done|]. by exists t.
Qed.

Lemma take_drop_string s : ∀ n, Str.take n s +:+ Str.drop n s = s.
Proof.
  induction s as [|c s IH]; intros [|n]; try reflexivity.
  change (String c (Str.take n s +:+ Str.drop n s) = String c s).
  by rewrite IH.
Qed.

Lemma drop_drop_string s : ∀ n m,
  Str.drop m (Str.drop n s) = Str.drop (n + m) s.
Proof.
  induction s as [|c s IH]; intros [|n] m; simpl; try done.
  by destruct m.
Qed.

Lemma min_index_cons tok m0 rest :
  min_index tok = m0 :: rest →
  min_index (Str.take m0 tok) = [] ∧
  (rest = [] → min_index (Str.drop m0 tok) = []) ∧
  (∀ m1 rest', rest = m1 :: rest' →
     (m0 ≤ m1)%nat ∧ min_index (Str.slice m0 m1 tok) = []).
Proof.
  unfold min_index. destruct tok as [|c0 tok]; [discriminate|]. simpl.
  intros H. apply indices_from_first in H as (Hle & Htake & t & Hdrop & Hrest).
  destruct m0 as [|m0]; [lia|]. simpl in *. rewrite Nat.sub_0_r in *.
  split; [done|]. rewrite Hdrop. simpl. split.
  - intros ->. eapply indices_from_nil_shift, Hrest.
  - intros m1 rest' ->.
    apply indices_from_first in Hrest as (Hle' & Htake' & _).
    split; [lia|]. unfold Str.slice. simpl. rewrite Hdrop.
    replace (m1 - S m0)%nat with (S (m1 - S (S m0))) by lia. simpl.
    eapply indices_from_nil_shift, Htake'.
Qed.

(** X6. On any three tokens the splitting of merged columns returns three
    tokens and never raises; the first two it returns have no minus sign
    after their first character; and no character of a token it cuts is
    lost: with one inner minus sign in the first token the first two
    results make it up and the third is the second token, with two or more
    the three results make it up, and otherwise the second and third results
    are the second token cut at its first inner minus sign, or the tokens
    as they were. *)
Theorem split_columns_spec g0 g1 g2 :
  ∃ a b c, split_columns [g0; g1; g2] = Ok [a; b; c] ∧
    min_index a = [] ∧ min_index b = [] ∧
    match min_index g0 with
    | [] =>
        a = g0 ∧
        match min_index g1 with
        | [] => b = g1 ∧ c = g2
        | _ :: _ => b +:+ c = g1
        end
    | [_] => a +:+ b = g0 ∧ c = g1
    | _ :: _ :: _ => a +:+ b +:+ c = g0
    end.
Proof.
  unfold split_columns, split_first, split_second. simpl.
  destruct (min_index g0) as [|m0 [|m1 rest]] eqn:E0; simpl.
  - destruct (min_index g1) as [|n0 rest1] eqn:E1; simpl.
    + by exists g0, g1, g2.
    + exists g0, (Str.take n0 g1), (Str.drop n0 g1).
      destruct (min_index_cons _ _ _ E1) as (Ht & _).
      repeat split; try done. apply take_drop_string.
  - destruct (min_index_cons _ _ _ E0) as (Ht & Hd & _).
    rewrite (Hd eq_refl). simpl.
    exists (Str.take m0 g0), (Str.drop m0 g0), g1.
    repeat split; auto. apply take_drop_string.
  - destruct (min_index_cons _ _ _ E0) as (Ht & _ & Hs).
    destruct (Hs m1 rest eq_refl) as [Hle Hsl].
    exists (Str.take m0 g0), (Str.slice m0 m1 g0), (Str.drop m1 g0).
    repeat split; auto.
    replace (Str.drop m1 g0) with (Str.drop (m1 - m0) (Str.drop m0 g0)).
    + unfold Str.slice. by rewrite take_drop_string, take_drop_string.
    + rewrite drop_drop_string. f_equal. lia.
Qed.

Lemma split_columns_total g0 g1 g2 :
  ∃ a b c, split_columns [g0; g1; g2] = Ok [a; b; c].
Proof.
  unfold split_columns, split_first, split_second. simpl.
  destruct (min_index g0) as [|m0 [|m1 rest]]; simpl; eauto.
  - destruct (min_index g1); simpl; eauto.
  - destruct (min_index (Str.drop m0 g0)); simpl; eauto.
Qed.

Lemma force_columns_three (toks : list string) :
  ∃ g0 g1 g2,
    take 3 (drop 3 toks) ++ replicate (3 - length (take 3 (drop 3 toks))) " "
    = [g0; g1; g2].
Proof.
  destruct (drop 3 toks) as [|a [|b [|c rest]]]; simpl; eauto.
Qed.

(** X7. Whatever an atom line of a forces table holds, it gives a row of
    exactly three floats or raises [ValueError]: missing columns are filled
    with a blank, which [float] is left to refuse, and no index is ever out
    of range. *)
Theorem force_row_three_or_ValueError line :
  (∃ v0 v1 v2, force_row line = Ok [v0; v1; v2]) ∨
  force_row line = Raise ValueError.
Proof.
  unfold force_row.
  destruct (force_columns_three (Str.split line)) as (g0 & g1 & g2 & ->).
  destruct (split_columns_total g0 g1 g2) as (a & b & c & ->). simpl.
  unfold force_component, to_float.
  destruct (float_of_str a); simpl; [|by right].
  destruct (float_of_str b); simpl; [|by right].
  destruct (float_of_str c); simpl; [|by right].
  left. eauto.
Qed.

(** ** The pattern of the energy line *)

Lemma append_assoc_string (a b c : string) : (a +:+ b) +:+ c = a +:+ b +:+ c.
Proof.
  induction a as [|x a IH]; [done|].
  change (String x ((a +:+ b) +:+ c) = String x (a +:+ b +:+ c)).
  by rewrite IH.
Qed.

Lemma star_inv cls k s r :
  Re.star cls k s = Some r → ∃ pre s', s = pre +:+ s' ∧ k s' = Some r.
Proof.
  induction s as [|c s IH]; simpl.
  - intros H. by exists EmptyString, EmptyString.
  - destruct (cls c).
    + destruct (Re.star cls k s) as [r'|] eqn:E.
      * intros [= ->]. destruct (IH eq_refl) as (pre & s' & -> & Hk).
        by exists (String c pre), s'.
      * intros H. by exists EmptyString, (String c s).
    + intros H. by exists EmptyString, (String c s).
Qed.

Lemma lit_inv l k : ∀ s r,
  Re.lit l k s = Some r → ∃ s', s = l +:+ s' ∧ k s' = Some r.
Proof.
  induction l as [|a l IH]; simpl; intros s r H; [by exists s|].
  destruct s as [|b s]; [discriminate|].
  case_bool_decide; [subst b|discriminate].
  apply IH in H as (s' & -> & Hk). by exists s'.
Qed.

Lemma plus_group_inv cls k s : ∀ acc r,
  Re.plus_group cls k acc s = Some r →
  ∃ t s', t ≠ EmptyString ∧ all_chars cls t = true ∧ s = t +:+ s' ∧
          k (acc +:+ t) s' = Some r.
Proof.
  induction s as [|c s IH]; simpl; intros acc r H; [discriminate|].
  destruct (cls c) eqn:Ec; [|discriminate].
  destruct (Re.plus_group cls k (acc +:+ String c EmptyString) s) as [r'|] eqn:E.
  - injection H as ->.
    destruct (IH _ _ E) as (t & s' & _ & Ht & -> & Hk).
    exists (String c t), s'. rewrite append_assoc_string in Hk.
    repeat split; try done. simpl. by rewrite Ec.
  - exists (String c EmptyString), s. repeat split; try done.
    simpl. by rewrite Ec.
Qed.

Lemma contains_app pre s sub :
  Str.starts_with sub s = true → Str.contains (pre +:+ s) sub = true.
Proof.
  intros H. induction pre as [|c pre IH].
  - change (Str.contains s sub = true). destruct s; simpl; by rewrite H.
  - change (Str.contains (String c (pre +:+ s)) sub = true). simpl.
    rewrite IH. apply orb_true_r.
Qed.

Lemma starts_with_app sub s : Str.starts_with sub (sub +:+ s) = true.
Proof.
  induction sub as [|c sub IH]; [done|].
  change (Str.starts_with (String c sub) (String c (sub +:+ s)) = true).
  simpl. by rewrite bool_decide_eq_true_2, IH.
Qed.

(** X8. When the energy pattern matches a line, its group is not empty and
    holds no blank character, so [float] is never handed an empty or a
    padded string; and the line holds the words 'Total lattice energy'
    followed later by 'eV'. *)
Theorem energy_group_sound line tok :
  Re.total_lattice_energy line = Some tok →
  tok ≠ EmptyString ∧ all_chars Re.non_space tok = true ∧
  Str.contains line "Total lattice energy" = true ∧
  Str.contains line "eV" = true.
Proof.
  unfold Re.total_lattice_energy. intros H.
  apply star_inv in H as (p0 & s0 & -> & H).
  apply lit_inv in H as (s1 & -> & H).
  apply star_inv in H as (p1 & s2 & -> & H).
  apply lit_inv in H as (s3 & -> & H).
  apply star_inv in H as (p2 & s4 & -> & H).
  apply plus_group_inv in H as (t & s5 & Hne & Ht & -> & H).
  apply star_inv in H as (p3 & s6 & -> & H).
  apply lit_inv in H as (s7 & -> & H).
  injection H as <-.
  split; [done|]. split; [done|]. split.
  - apply contains_app, starts_with_app.
  - rewrite <- !append_assoc_string. rewrite append_assoc_string.
    apply contains_app, starts_with_app.
Qed.

(** a string that does not begin with a character of the class *)
Lemma star_skip cls k ws s r :
  all_chars cls ws = true →
  match s with String c _ => cls c = false | EmptyString => True end →
  k s = Some r → Re.star cls k (ws +:+ s) = Some r.
Proof.
  intros Hws Hs Hk. induction ws as [|c ws IH].
  - change (Re.star cls k s = Some r). destruct s; simpl; [done|].
    by rewrite Hs.
  - simpl in Hws. apply andb_true_iff in Hws as [Hc Hws].
    change (Re.star cls k (String c (ws +:+ s)) = Some r). simpl.
    by rewrite Hc, (IH Hws).
Qed.

Lemma lit_app l k s : Re.lit l k (l +:+ s) = k s.
Proof.
  induction l as [|a l IH]; [done|].
  change (Re.lit (String a l) k (String a (l +:+ s)) = k s). simpl.
  by rewrite bool_decide_eq_true_2.
Qed.

Lemma plus_group_run cls k tok s r : ∀ acc,
  tok ≠ EmptyString → all_chars cls tok = true →
  match s with String c _ => cls c = false | EmptyString => True end →
  k (acc +:+ tok) s = Some r →
  Re.plus_group cls k acc (tok +:+ s) = Some r.
Proof.
  induction tok as [|c tok IH]; intros acc Hne Htok Hs Hk; [done|].
  simpl in Htok. apply andb_true_iff in Htok as [Hc Htok].
  change (Re.plus_group cls k acc (String c (tok +:+ s)) = Some r). simpl.
  rewrite Hc. destruct tok as [|d tok].
  - change (EmptyString +:+ s) with s.
    assert (Re.plus_group cls k (acc +:+ String c EmptyString) s = None) as ->.
    { destruct s; simpl; [done|]. by rewrite Hs. }
    done.
  - rewrite (IH (acc +:+ String c EmptyString)); try done.
    by rewrite append_assoc_string.
Qed.

(** X9. A line made of blanks, 'Total lattice energy', blanks, '=', blanks,
    a token without blanks, at least one blank and 'eV' matches the energy
    pattern, and the group is the whole token, whatever follows 'eV' and
    even if the token itself holds 'eV': the greedy group is tried at its
    longest first. *)
Theorem energy_line_matches ws0 ws1 ws2 tok sp ws3 rest :
  all_chars Str.is_space ws0 = true → all_chars Str.is_space ws1 = true →
  all_chars Str.is_space ws2 = true → all_chars Str.is_space ws3 = true →
  Str.is_space sp = true →
  tok ≠ EmptyString → all_chars Re.non_space tok = true →
  Re.total_lattice_energy
    (ws0 +:+ "Total lattice energy" +:+ ws1 +:+ "=" +:+ ws2 +:+ tok +:+
     String sp (ws3 +:+ "eV" +:+ rest)) = Some tok.
Proof.
  intros H0 H1 H2 H3 Hsp Hne Htok. unfold Re.total_lattice_energy.
  apply star_skip; [done|done|]. rewrite lit_app.
  apply star_skip; [done|done|]. rewrite lit_app.
  apply star_skip; [done| |].
  { destruct tok as [|c tok]; [done|]. simpl in Htok.
    apply andb_true_iff in Htok as [Hc _]. unfold Re.non_space in Hc.
    change (Str.is_space c = false). by destruct (Str.is_space c). }
  apply plus_group_run; [done|done| |].
  { unfold Re.non_space. by rewrite Hsp. }
  change (String sp (ws3 +:+ "eV" +:+ rest))
    with (String sp ws3 +:+ "eV" +:+ rest).
  apply star_skip; [simpl; by rewrite Hsp|done|].
  by rewrite lit_app.
Qed.

(** ** A row of coordinates that is too short *)

Lemma site_line_raises coord site e :
  site_line coord site = Raise e → e = IndexError.
Proof.
  unfold site_line.
  destruct (coord !! 0%nat); simpl; [|by intros [= <-]].
  destruct (coord !! 1%nat); simpl; [|by intros [= <-]].
  destruct (coord !! 2%nat); simpl; [discriminate|by intros [= <-]].
Qed.

Lemma site_line_short coord site :
  (length coord < 3)%nat → site_line coord site = Raise IndexError.
Proof.
  intros H. destruct (site_line coord site) as [e|l] eqn:E.
  - by rewrite (site_line_raises _ _ _ E).
  - unfold site_line in E. apply bind_Ok in E as (x & _ & E).
    apply bind_Ok in E as (y & _ & E). apply bind_Ok in E as (z & Hz & _).
    apply or_raise_Ok, lookup_lt_Some in Hz. lia.
Qed.

Lemma site_lines_short coords : ∀ sites k row site,
  coords !! k = Some row → sites !! k = Some site → (length row < 3)%nat →
  ∃ ls, site_lines coords sites = (ls, Some IndexError) ∧ (length ls ≤ k)%nat.
Proof.
  induction coords as [|r coords IH]; intros sites k row site Hr Hs Hlen;
    [by rewrite lookup_nil in Hr|].
  destruct sites as [|s sites]; [by rewrite lookup_nil in Hs|].
  simpl. destruct k as [|k]; simpl in Hr, Hs.
  - injection Hr as ->. rewrite (site_line_short _ _ Hlen).
    exists []. split; [done|simpl; lia].
  - destruct (site_line r s) as [e|l] eqn:E.
    + rewrite (site_line_raises _ _ _ E). exists []. split; [done|simpl; lia].
    + destruct (IH sites k row site Hr Hs Hlen) as (ls & -> & Hle).
      exists (l :: ls). split; [done|simpl; lia].
Qed.

(** X10. When a site has fewer than three coordinates, [write] fails on it
    after the file is opened: [run] raises (an [IndexError] when the file
    could be written), its only system call is the writing of the lines
    that precede the site, and the executable is not invoked. *)
Theorem short_row_stops_run g clean_up w tr k row site :
  frac_coords g !! k = Some row → sites g !! k = Some site →
  (length row < 3)%nat →
  (deck_writes g).2 = Some IndexError ∧
  (length (deck_writes g).1 ≤ 4 + k)%nat ∧
  is_ok (run g clean_up (w, tr)).1 = false ∧
  (run g clean_up (w, tr)).2.2 = tr ++ [EvWrite (input g) (deck_text g)] ∧
  (∀ w', file_write (input g) (deck_text g) w = Ok w' →
     run g clean_up (w, tr) =
       (Raise IndexError, (w', tr ++ [EvWrite (input g) (deck_text g)]))).
Proof.
  intros Hr Hs Hlen.
  destruct (site_lines_short _ _ _ _ _ Hr Hs Hlen) as (ls & Hls & Hle).
  assert (Hd : deck_writes g =
    ([first_line g; nl +:+ "cell" +:+ nl; cell_line g;
      nl +:+ "fractional" +:+ nl] ++ ls, Some IndexError)).
  { unfold deck_writes. by rewrite Hls. }
  split; [by rewrite Hd|]. split; [rewrite Hd; simpl; lia|].
  unfold run, write, deck_text. rewrite Hd. io_unfold. simpl.
  destruct (file_write (input g) _ w) as [e|w1]; simpl.
  - repeat split; try done.
  - repeat split; try done. by intros w' [= ->].
Qed.

(** ** The constructor: stored arguments and system calls *)

Lemma init_inv struc lbl pth ff0 opt0 stp exe0 inp out dmp w tr g s' :
  init struc lbl pth ff0 opt0 stp exe0 inp out dmp (w, tr) = (Ok g, s') →
  ∃ a L w',
    Lattice_from_matrix (atoms_cell a) = Ok L ∧
    g = {| lattice := L;
           frac_coords := get_scaled_positions a;
           sites := get_chemical_symbols a;
           structure := a;
           label := lbl; ff := ff0; opt := opt0; exe := exe0; steps := stp;
           folder := pth;
           input := pth +:+ "/" +:+ lbl +:+ inp;
           output := pth +:+ "/" +:+ lbl +:+ out;
           dump := dmp;
           iter := 0; energy := None; stress := None; forces := None;
           positions := None; optimized := false; cputime := NInt 0;
           error := false |} ∧
    (s' = (w, tr ++ [EvExists pth]) ∧ os_path_exists pth w = true ∨
     s' = (w', tr ++ [EvExists pth] ++ [EvMakedirs pth]) ∧
     os_path_exists pth w = false ∧ os_makedirs pth w = Ok w').
Proof.
  unfold init.
  assert (Hcore : ∀ a,
    (lat ← io_lift (Lattice_from_matrix (atoms_cell a));
     ex ← path_exists pth;
     (if negb ex then makedirs pth else io_ret ());;
     io_ret
       {| lattice := lat; frac_coords := get_scaled_positions a;
          sites := get_chemical_symbols a; structure := a;
          label := lbl; ff := ff0; opt := opt0; exe := exe0; steps := stp;
          folder := pth; input := pth +:+ "/" +:+ lbl +:+ inp;
          output := pth +:+ "/" +:+ lbl +:+ out; dump := dmp;
          iter := 0; energy := None; stress := None; forces := None;
          positions := None; optimized := false; cputime := NInt 0;
          error := false |}) (w, tr) = (Ok g, s') →
    ∃ L w', Lattice_from_matrix (atoms_cell a) = Ok L ∧
      g = {| lattice := L; frac_coords := get_scaled_positions a;
             sites := get_chemical_symbols a; structure := a;
             label := lbl; ff := ff0; opt := opt0; exe := exe0; steps := stp;
             folder := pth; input := pth +:+ "/" +:+ lbl +:+ inp;
             output := pth +:+ "/" +:+ lbl +:+ out; dump := dmp;
             iter := 0; energy := None; stress := None; forces := None;
             positions := None; optimized := false; cputime := NInt 0;
             error := false |} ∧
      (s' = (w, tr ++ [EvExists pth]) ∧ os_path_exists pth w = true ∨
       s' = (w', tr ++ [EvExists pth] ++ [EvMakedirs pth]) ∧
       os_path_exists pth w = false ∧ os_makedirs pth w = Ok w')).
  { intros a. io_unfold. simpl.
    destruct (Lattice_from_matrix (atoms_cell a)) as [e|L]; [discriminate|].
    destruct (os_path_exists pth w) eqn:Ex; simpl.
    - intros [= <- <-]. exists L, w. split; [done|]. split; [done|]. by left.
    - destruct (os_makedirs pth w) as [e|w1] eqn:Em; [discriminate|].
      intros [= <- <-]. exists L, w1. split; [done|]. split; [done|].
      right. by rewrite <- app_assoc. }
  destruct struc as [p|a| |o]; io_unfold; simpl; try discriminate.
  - destruct (pyxtal_to_ase p) as [e|a]; [discriminate|]. intros H.
    destruct (Hcore a H) as (L & w' & ?). by exists a, L, w'.
  - intros H. destruct (Hcore a H) as (L & w' & ?). by exists a, L, w'.
Qed.

Lemma init_trace struc lbl pth ff0 opt0 stp exe0 inp out dmp w tr :
  ∃ calls,
    (init struc lbl pth ff0 opt0 stp exe0 inp out dmp (w, tr)).2.2
      = tr ++ calls ∧
    (calls = [] ∨ calls = [EvExists pth] ∨
     calls = [EvExists pth; EvMakedirs pth] ∧ os_path_exists pth w = false).
Proof.
  unfold init.
  assert (Hcore : ∀ a, ∃ calls,
    ((lat ← io_lift (Lattice_from_matrix (atoms_cell a));
      ex ← path_exists pth;
      (if negb ex then makedirs pth else io_ret ());;
      io_ret
        {| lattice := lat; frac_coords := get_scaled_positions a;
           sites := get_chemical_symbols a; structure := a;
           label := lbl; ff := ff0; opt := opt0; exe := exe0; steps := stp;
           folder := pth; input := pth +:+ "/" +:+ lbl +:+ inp;
           output := pth +:+ "/" +:+ lbl +:+ out; dump := dmp;
           iter := 0; energy := None; stress := None; forces := None;
           positions := None; optimized := false; cputime := NInt 0;
           error := false |}) (w, tr)).2.2 = tr ++ calls ∧
    (calls = [] ∨ calls = [EvExists pth] ∨
     calls = [EvExists pth; EvMakedirs pth] ∧ os_path_exists pth w = false)).
  { intros a. io_unfold. simpl.
    destruct (Lattice_from_matrix (atoms_cell a)) as [e|L]; simpl.
    { exists []. by rewrite app_nil_r; auto. }
    destruct (os_path_exists pth w) eqn:Ex; simpl.
    - exists [EvExists pth]. auto.
    - exists [EvExists pth; EvMakedirs pth].
      destruct (os_makedirs pth w); simpl; rewrite <- app_assoc; auto. }
  destruct struc as [p|a| |o]; io_unfold; simpl.
  - destruct (pyxtal_to_ase p) as [e|a]; simpl; [|apply Hcore].
    exists []. by rewrite app_nil_r; auto.
  - apply Hcore.
  - exists []. by rewrite app_nil_r; auto.
  - exists []. by rewrite app_nil_r; auto.
Qed.

(** X11. [__init__] makes no system call other than the check that the
    folder exists and, only when it does not, its creation. When it
    returns, the calculator holds the arguments as given, the file names
    [path + '/' + label + input] and [path + '/' + label + output], and the
    lattice, coordinates and symbols of the structure it keeps. *)
Theorem init_stores_arguments struc lbl pth ff0 opt0 stp exe0 inp out dmp w tr :
  (∃ calls,
     (init struc lbl pth ff0 opt0 stp exe0 inp out dmp (w, tr)).2.2
       = tr ++ calls ∧
     (calls = [] ∨ calls = [EvExists pth] ∨
      calls = [EvExists pth; EvMakedirs pth] ∧ os_path_exists pth w = false)) ∧
  (∀ g s',
     init struc lbl pth ff0 opt0 stp exe0 inp out dmp (w, tr) = (Ok g, s') →
     label g = lbl ∧ folder g = pth ∧ ff g = ff0 ∧ opt g = opt0 ∧
     steps g = stp ∧ exe g = exe0 ∧ dump g = dmp ∧
     input g = pth +:+ "/" +:+ lbl +:+ inp ∧
     output g = pth +:+ "/" +:+ lbl +:+ out ∧
     Lattice_from_matrix (atoms_cell (structure g)) = Ok (lattice g) ∧
     frac_coords g = get_scaled_positions (structure g) ∧
     sites g = get_chemical_symbols (structure g) ∧
     (s'.2 = tr ++ [EvExists pth] ∨
      s'.2 = tr ++ [EvExists pth; EvMakedirs pth])).
Proof.
  split; [apply init_trace|]. intros g s' H.
  apply init_inv in H as (a & L & w' & HL & -> & Hs). simpl.
  repeat split; try done.
  destruct Hs as [[-> _]|(-> & _)]; auto.
Qed.

(** ** What the drivers can return *)





(** ** The invocations of [optimize] *)

Lemma invocations_app l1 l2 :
  invocations (l1 ++ l2) = (invocations l1 + invocations l2)%nat.
Proof.
  induction l1 as [|ev l1 IH]; [done|]. destruct ev; simpl; by rewrite IH.
Qed.

Lemma system_in_run_calls g clean_up k cmd :
  EvSystem cmd ∈ take k (run_calls g clean_up) → cmd = command g.
Proof.
  intros H. assert (Hin : EvSystem cmd ∈ run_calls g clean_up).
  { rewrite <- (take_drop k). apply elem_of_app. by left. }
  unfold run_calls, removals in Hin. simpl in Hin.
  rewrite !elem_of_cons in Hin.
  destruct Hin as [?|[?|[?|Hin]]]; try congruence.
  destruct clean_up; [|by apply elem_of_nil in Hin].
  rewrite !elem_of_cons in Hin. destruct Hin as [?|[?|Hin]]; try congruence.
  destruct (dump g); [|by apply elem_of_nil in Hin].
  apply list_elem_of_singleton in Hin. congruence.
Qed.

Lemma single_optimize_calls struc ff0 opt0 exe0 pth lbl clean_up w tr :
  ∃ calls,
    (single_optimize struc ff0 opt0 exe0 pth lbl clean_up (w, tr)).2.2
      = tr ++ calls ∧
    (invocations calls ≤ 1)%nat ∧
    ∀ cmd, EvSystem cmd ∈ calls → cmd = default_command pth lbl.
Proof.
  destruct (init_trace struc lbl pth ff0 opt0 1000 "gulp" "gulp.in" "gulp.log"
              None w tr) as (ics & Htr & Hics).
  assert (Hno : invocations ics = 0%nat ∧ ∀ cmd, EvSystem cmd ∉ ics).
  { destruct Hics as [->|[->|[-> _]]]; split; try done; intros cmd Hin;
      rewrite ?elem_of_cons in Hin; rewrite ?elem_of_nil in Hin;
      intuition congruence. }
  destruct Hno as [Hno0 Hnoin].
  unfold single_optimize, mbind, IO_bind, io_bind, io_lift.
  destruct (init _ _ _ _ _ _ _ _ _ _ _) as [[e|calc] [w1 tr1]] eqn:Ei;
    simpl in Htr; subst tr1.
  { exists ics. split; [done|]. split; [lia|]. intros cmd Hin.
    by destruct (Hnoin cmd). }
  apply init_inv in Ei as (a & L & w' & _ & Hcalc & _).
  destruct (run_trace calc clean_up w1 (tr ++ ics)) as (k & Hk & _).
  exists (ics ++ take k (run_calls calc clean_up)).
  split; [|split].
  - rewrite app_assoc, <- Hk.
    destruct (run calc clean_up (w1, tr ++ ics)) as [[e|calc'] s2]; [done|].
    destruct (error calc'); [done|]. by destruct (to_pyxtal calc').
  - rewrite invocations_app, Hno0, invocations_run_calls.
    case_decide; simpl; lia.
  - intros cmd Hin. apply elem_of_app in Hin as [Hin|Hin];
      [by destruct (Hnoin cmd)|].
    apply system_in_run_calls in Hin. rewrite Hin. by subst calc.
Qed.

Lemma optimize_loop_calls opts ff0 exe0 pth lbl : ∀ struc energy time w tr,
  ∃ calls,
    (optimize_loop opts ff0 exe0 pth lbl struc energy time (w, tr)).2.2
      = tr ++ calls ∧
    (invocations calls ≤ length opts)%nat ∧
    ∀ cmd, EvSystem cmd ∈ calls → cmd = default_command pth lbl.
Proof.
  induction opts as [|opt0 opts IH]; simpl; intros struc energy time w tr.
  - exists []. rewrite app_nil_r. split; [by destruct energy|]. split; [done|].
    intros cmd Hin. by apply elem_of_nil in Hin.
  - destruct (single_optimize_calls struc ff0 opt0 exe0 pth lbl true w tr)
      as (c1 & Htr1 & Hinv1 & Hcmd1).
    unfold mbind, IO_bind, io_bind.
    destruct (single_optimize struc ff0 opt0 exe0 pth lbl true (w, tr))
      as [[e|o1] [w1 tr1]]; simpl in Htr1; subst tr1.
    { exists c1. split; [done|]. split; [lia|done]. }
    destruct o1 as [[[st en] tm] er]. destruct er.
    { exists c1. split; [done|]. split; [lia|done]. }
    destruct (IH st (Some en) (num_add time tm) w1 (tr ++ c1))
      as (c2 & Htr2 & Hinv2 & Hcmd2).
    exists (c1 ++ c2). split; [by rewrite Htr2, app_assoc|].
    split; [rewrite invocations_app; lia|].
    intros cmd Hin. apply elem_of_app in Hin as [?|?]; auto.
Qed.

Lemma optimize_loop_exe opts ff0 exe1 exe2 pth lbl : ∀ struc energy time s,
  optimize_loop opts ff0 exe1 pth lbl struc energy time s =
  optimize_loop opts ff0 exe2 pth lbl struc energy time s.
Proof.
  induction opts as [|opt0 opts IH]; simpl; intros struc energy time s; [done|].
  unfold mbind, IO_bind, io_bind.
  change (single_optimize struc ff0 opt0 exe1 pth lbl true s)
    with (single_optimize struc ff0 opt0 exe2 pth lbl true s).
  destruct (single_optimize struc ff0 opt0 exe2 pth lbl true s)
    as [[e|[[[st en] tm] er]] s1]; [done|].
  destruct er; [done|]. apply IH.
Qed.

(** X13. Whatever executable and whatever [clean] it is given, [optimize]
    does the same: its stages are run with the executable ['gulp'] and with
    [clean=True]. It invokes the shell at most once per stage, always by the
    one command made of ['gulp'] and of the input and output files of the
    folder and label. *)
Theorem optimize_invocations struc ff0 opts exe0 pth lbl clean_up w tr :
  (∀ exe1 clean1,
     optimize struc ff0 opts exe1 pth lbl clean1 (w, tr) =
     optimize struc ff0 opts exe0 pth lbl clean_up (w, tr)) ∧
  ∃ calls,
    (optimize struc ff0 opts exe0 pth lbl clean_up (w, tr)).2.2 = tr ++ calls ∧
    (invocations calls ≤ length opts)%nat ∧
    ∀ cmd, EvSystem cmd ∈ calls →
      cmd = "gulp<" +:+ pth +:+ "/" +:+ lbl +:+ "gulp.in" +:+ ">" +:+
            pth +:+ "/" +:+ lbl +:+ "gulp.log".
Proof.
  split.
  - intros exe1 clean1. unfold optimize. apply optimize_loop_exe.
  - destruct (optimize_loop_calls opts ff0 exe0 pth lbl struc None (NInt 0) w tr)
      as (calls & Htr & Hinv & Hcmd).
    exists calls. split; [done|]. split; [done|].
    intros cmd Hin. rewrite (Hcmd cmd Hin). unfold default_command.
    by rewrite !append_assoc_string.
Qed.

(** ** Values and rows that do not parse *)

(** X14. One value that does not parse is enough for the whole read to
    fail (a field of asterisks, say): an energy group or a last token of
    the CPU-time line that [float] refuses, a second token of a cycle line
    that is missing or that [int] refuses. *)
Theorem unparsable_value_flagged lines g i line :
  lines !! i = Some line →
  (∃ tok, Re.total_lattice_energy line = Some tok ∧ float_of_str tok = None) ∨
  (line_kind line = KCpuTime ∧
   ∀ tok, last (Str.split line) = Some tok → float_of_str tok = None) ∨
  (line_kind line = KCycle ∧
   ∀ tok, Str.split line !! 1%nat = Some tok → int_of_str tok = None) →
  error (read_report lines g) = true ∧
  energy (read_report lines g) = Some (NInt 100000).
Proof.
  intros Hi Hbad. apply (raising_line_flags lines i line g Hi).
  intros g1. destruct (read_line lines i line g1) as [e|g2] eqn:E; [done|].
  apply read_line_inv in E. exfalso.
  destruct Hbad as [(tok & Hre & Hf)|[[HK Hf]|[HK Hf]]].
  - assert (HK : line_kind line = KEnergy)
      by (apply line_kind_energy; rewrite Hre; by eexists).
    rewrite HK in E. destruct E as (tok' & v & Hre' & Hv & _).
    congruence.
  - rewrite HK in E. destruct E as (tok & v & Ht & Hv & _).
    rewrite (Hf tok Ht) in Hv. discriminate.
  - rewrite HK in E. destruct E as (tok & n & Ht & Hn & _).
    rewrite (Hf tok Ht) in Hn. discriminate.
Qed.

Lemma table_rows_bad_row row before l after :
  Forall (λ l, Str.contains l "------------" = false) before →
  Str.contains l "------------" = false → is_ok (row l) = false →
  is_ok (table_rows row (before ++ l :: after)) = false.
Proof.
  intros Hb Hl Hrow. induction Hb as [|b before Hno _ IH]; simpl.
  - rewrite Hl. by destruct (row l).
  - rewrite Hno. destruct (row b); simpl; [done|].
    by destruct (table_rows row (before ++ l :: after)).
Qed.

(** X15. One atom line that cannot be converted, anywhere before the rule
    that closes a forces table or a coordinates table, makes the read fail:
    no row of the table is kept. *)
Theorem bad_row_flagged lines g i header before l after :
  lines !! i = Some header →
  drop (i + 6) lines = before ++ l :: after →
  Forall (λ l, Str.contains l "------------" = false) before →
  Str.contains l "------------" = false →
  (line_kind header = KForces ∧ is_ok (force_row l) = false) ∨
  (line_kind header = KFracCoords ∧ is_ok (frac_row l) = false) →
  error (read_report lines g) = true ∧
  energy (read_report lines g) = Some (NInt 100000).
Proof.
  intros Hi Hdrop Hb Hl HK. apply (raising_line_flags lines i header g Hi).
  intros g1. pose proof (line_kind_read_line lines i header g1) as Hr.
  destruct HK as [[HK Hrow]|[HK Hrow]]; rewrite HK in Hr; rewrite Hr, Hdrop.
  - pose proof (table_rows_bad_row force_row before l after Hb Hl Hrow).
    by destruct (table_rows force_row (before ++ l :: after)).
  - pose proof (table_rows_bad_row frac_row before l after Hb Hl Hrow).
    by destruct (table_rows frac_row (before ++ l :: after)).
Qed.

(** ** Files left behind *)

(** X16. When the output file cannot be read after the invocation, [run]
    raises the exception of [open], outside the handler of [read]: no error
    flag is set, and nothing is removed even with [clean=True], so the input
    deck stays in the folder. *)
Theorem unreadable_output_stops_run g clean_up w tr w1 e :
  (deck_writes g).2 = None →
  file_write (input g) (deck_text g) w = Ok w1 →
  file_readlines (output g) (os_system (command g) w1) = Raise e →
  run g clean_up (w, tr) =
    (Raise e,
     (os_system (command g) w1,
      tr ++ [EvWrite (input g) (deck_text g); EvSystem (command g);
             EvReadlines (output g)])).
Proof.
  unfold run, write, execute, read, deck_text, command.
  destruct (deck_writes g) as [chunks err]. simpl. intros -> Hw Hr.
  io_unfold. simpl. rewrite Hw. simpl. rewrite Hr.
  by rewrite <- !app_assoc.
Qed.

(** ** Reading, then writing again *)

(** X17. After a read without error whose last coordinates table has rows
    of three floats, the calculator can be written again: every row has its
    three entries, the deck is written whole, and site [k] of the deck pairs
    the symbol the calculator had at [k] before the read with row [k] of
    the table. *)
Theorem read_then_write lines g i header body rows :
  lines !! i = Some header → line_kind header = KFracCoords →
  table_at lines (i + 6) body → Forall2 coords_row body rows →
  (∀ j l, (i < j)%nat → lines !! j = Some l → line_kind l ≠ KFracCoords) →
  error g = false → error (read_report lines g) = false →
  well_shaped (read_report lines g) ∧
  (deck_writes (read_report lines g)).2 = None ∧
  ∀ k site vx vy vz,
    sites g !! k = Some site → rows !! k = Some [vx; vy; vz] →
    site_text site vx vy vz ∈ (deck_writes (read_report lines g)).1.
Proof.
  intros Hi HK Ht Hrows Hlast Hg Herr.
  destruct (read_report_clean lines g Hg Herr) as [Hs _].
  assert (Hfrac : frac_coords (read_report lines g) = rows).
  { destruct (scan_last frac_coords KFracCoords lines i header g _
                stable_frac_coords (conj Hi (conj HK Hlast)) Hs)
      as (g1 & g2 & Hr & ->).
    rewrite (read_frac_coords_ok lines i header g1 body rows HK Ht Hrows) in Hr.
    by injection Hr as <-. }
  assert (Hsites : sites (read_report lines g) = sites g).
  { apply scan_configuration in Hs. unfold configuration in Hs. congruence. }
  assert (Hshape : well_shaped (read_report lines g)).
  { unfold well_shaped. rewrite Hfrac. clear -Hrows.
    induction Hrows as [|l r ? ? Hl _ IH]; constructor; [|done].
    destruct Hl as (? & ? & ? & ? & ? & ? & ? & ? & ? & ? & _ & _ & _ & _ & ->).
    simpl. lia. }
  split; [done|].
  destruct (site_lines_ok _ (sites (read_report lines g)) Hshape)
    as (ls & Hls & _ & Hk).
  unfold deck_writes. rewrite Hls. simpl. split; [done|].
  intros k site vx vy vz Hsite Hrow.
  rewrite <- Hsites in Hsite. rewrite <- Hfrac in Hrow.
  destruct (Hk k site _ Hsite Hrow) as (x & y & z & Hx & Hy & Hz & Hl).
  simpl in Hx, Hy, Hz. injection Hx as <-. injection Hy as <-.
  injection Hz as <-.
  rewrite !elem_of_cons, elem_of_app. do 4 right. left.
  eapply list_elem_of_lookup_2, Hl.
Qed.

End Properties.

(** * The calculator on the sample report *)

Section SampleRuns.
#[local] Existing Instances Sample.dec_float Sample.libs Sample.os.

Example split_atom_line :
  Str.split "     1  C     c       0.100000-0.200000      0.300000" =
  ["1"; "C"; "c"; "0.100000-0.200000"; "0.300000"].
Proof. reflexivity. Qed.

Example energy_line :
  Re.total_lattice_energy "  Total lattice energy       =   -61.95509467 eV"
  = Some "-61.95509467".
Proof. reflexivity. Qed.

Example energy_line_other_unit :
  Re.total_lattice_energy
    "  Total lattice energy  =  -5977.5983 kJ/(mole unit cells)" = None.
Proof. reflexivity. Qed.

(** the group gives back characters until 'eV' can follow *)
Example energy_line_tight :
  Re.total_lattice_energy "Total lattice energy=5eV" = Some "5".
Proof. reflexivity. Qed.

Example merged_atom_line :
  force_row "     3  C     c       1.500000-2.500000-3.500000      0.000000"
  = Ok [Sample.DVal (-1500000); Sample.DVal 2500000; Sample.DVal 3500000].
Proof. reflexivity. Qed.

(** a number in exponent notation is cut at the sign of its exponent *)
Example exponent_atom_line :
  split_columns ["1.0e-05"; "0.000000"; "0.000000"]
  = Ok ["1.0e"; "-05"; "0.000000"].
Proof. reflexivity. Qed.

(** the scan stops at the line that raises: the lines after it are not read *)
Example interrupted_scan :
  optimized (read_report Sample.broken_report Sample.calc) = false ∧
  error (read_report Sample.broken_report Sample.calc) = true.
Proof. split; reflexivity. Qed.

(** [__init__] on a string and on the diamond cell *)
Lemma init_spec_witness :
  init Sample.a_string "_" "tmp" "tersoff.lib" "conp" 1000 "gulp"
    "gulp.in" "gulp.log" None Sample.start
  = (Raise NotImplementedError, Sample.start)
  ∧ ∃ g s',
      init (AtomsObj Sample.diamond) "_" "tmp" "tersoff.lib" "conp" 1000
        "gulp" "gulp.in" "gulp.log" None Sample.start = (Ok g, s')
      ∧ energy g = None ∧ stress g = None ∧ forces g = None
      ∧ positions g = None ∧ optimized g = false ∧ error g = false
      ∧ iter g = 0 ∧ cputime g = NInt 0.
Proof.
  split.
  - apply (proj1 (init_spec Sample.a_string "_" "tmp" "tersoff.lib"
                    "conp" 1000 "gulp" "gulp.in" "gulp.log" None
                    Sample.start)).
    reflexivity.
  - pose proof (init_spec (AtomsObj Sample.diamond) "_" "tmp" "tersoff.lib"
                  "conp" 1000 "gulp" "gulp.in" "gulp.log" None
                  Sample.start) as (_ & Hfields & Hreturns).
    destruct (Hreturns Sample.diamond (Sample.c_cell Sample.diamond))
      as (g & s' & Hg).
    + left. reflexivity.
    + reflexivity.
    + right. eexists. reflexivity.
    + exists g, s'. split; [exact Hg|].
      destruct (Hfields g s' Hg) as (_ & _ & H). exact H.
Defined.

(** the deck of the sample calculator *)
Lemma write_deck_witness :
  ∃ site_ls sp,
    (deck_writes Sample.calc).1 =
      [first_line Sample.calc; nl +:+ "cell" +:+ nl; cell_line Sample.calc;
       nl +:+ "fractional" +:+ nl]
        ++ site_ls ++ [nl +:+ "Species" +:+ nl] ++ map species_line sp
        ++ [nl +:+ "library tersoff.lib" +:+ nl; "ewald 10.0" +:+ nl]
        ++ maxcycle_line Sample.calc ++ dump_line Sample.calc
    ∧ length site_ls = 2%nat ∧ NoDup sp ∧ (∀ s, s ∈ sp ↔ s ∈ ["C"; "C"]).
Proof.
  assert (Hg : well_shaped Sample.calc).
  { repeat constructor; simpl; lia. }
  destruct (write_deck Sample.calc Hg)
    as (site_ls & sp & Hd & _ & _ & Hlen & _ & Hnd & Hsp & _).
  exists site_ls, sp. rewrite Hd. repeat split.
  - apply Hlen. reflexivity.
  - exact Hnd.
  - apply Hsp.
  - apply Hsp.
Defined.



(** a report that raises, the sample report, and a report without energy *)
Lemma read_error_handling_witness :
  (error (read_report Sample.broken_report Sample.calc) = true ∧
   energy (read_report Sample.broken_report Sample.calc) = Some (NInt 100000))
  ∧ (read_report Sample.report Sample.calc = scanned Sample.report Sample.calc ∧
     error (read_report Sample.report Sample.calc) = false)
  ∧ (error (read_report ["  Job Finished"] Sample.calc) = true ∧
     energy (read_report ["  Job Finished"] Sample.calc) = Some (NInt 100000)).
Proof.
  split; [|split].
  - apply (proj1 (read_error_handling Sample.broken_report Sample.calc)).
    left. vm_compute. reflexivity.
  - apply (proj1 (proj2 (read_error_handling Sample.report Sample.calc)));
      vm_compute; reflexivity.
  - apply (proj1 (proj2 (proj2
             (read_error_handling ["  Job Finished"] Sample.calc)))).
    + intros line Hl. apply list_elem_of_singleton in Hl. rewrite Hl.
      vm_compute. reflexivity.
    + reflexivity.
Defined.

Ltac last_line :=
  split; [reflexivity|];
  split; [vm_compute; reflexivity|];
  apply none_later_check; vm_compute; reflexivity.

(** the scalars of the sample report *)
Lemma read_scalars_witness :
  (∃ v, float_of_str "-61.960000" = Some v ∧
        energy (read_report Sample.report Sample.calc) = Some (NFloat v))
  ∧ (∃ v, float_of_str "0.026200" = Some v ∧
          cputime (read_report Sample.report Sample.calc) = NFloat v)
  ∧ iter (read_report Sample.report Sample.calc) = 1
  ∧ optimized (read_report Sample.report Sample.calc) = true
  ∧ (∃ s, stress (read_report Sample.report Sample.calc) = Some s ∧
          length s = 6%nat).
Proof.
  destruct (read_scalars Sample.report Sample.calc) as (He & Hc & Hi & Ho & Hs).
  { reflexivity. }
  { vm_compute. reflexivity. }
  split; [|split; [|split; [|split]]].
  - destruct (He 2%nat
      "  Total lattice energy       =         -61.960000 eV")
      as (tok & v & Ht & Hv & Hen); [last_line|].
    vm_compute in Ht. injection Ht as <-. exists v. split; assumption.
  - destruct (Hc 35%nat "  Total CPU time       0.026200")
      as (tok & v & Ht & Hv & Hcpu); [last_line|].
    vm_compute in Ht. injection Ht as <-. exists v. split; assumption.
  - destruct (Hi 1%nat
      "  Cycle:      1 Energy:       -61.960000  Gnorm:      0.000100  CPU:    0.020")
      as (tok & n & Ht & Hn & Hit & _); [last_line|].
    vm_compute in Ht. injection Ht as <-.
    vm_compute in Hn. injection Hn as <-. exact Hit.
  - apply Ho. right.
    exists "  Job Finished at 10:00.00 1st January 2021".
    split; [|split; vm_compute; reflexivity].
    apply list_elem_of_lookup. exists 36%nat. reflexivity.
  - destruct (Hs 28%nat "  Final stress tensor components (kbar):")
      as (s & Hst & Hlen & _); [last_line|].
    exists s. split; assumption.
Defined.


(** C3, as the claim words it, fails. On [Sample.overlapping_report] the
    read flags no error; a line containing 'Job Finished' appears, but it
    matches the energy pattern first, so [optimized] stays false; and on
    the ' Cycle: ' line the integer following 'Cycle:' is 5 while [iter]
    is 12, the integer at token 1 of the line. *)
Lemma read_scalars_counterexample :
  error (read_report Sample.overlapping_report Sample.calc) = false
  ∧ ¬ (optimized (read_report Sample.overlapping_report Sample.calc) = true ↔
       ∃ line, line ∈ Sample.overlapping_report ∧
               Str.contains line "Job Finished" = true)
  ∧ (∃ line pre post, line ∈ Sample.overlapping_report ∧
       Str.contains line " Cycle: " = true ∧
       Str.split line = pre ++ "Cycle:" :: "5" :: post ∧
       int_of_str "5" = Some 5 ∧
       iter (read_report Sample.overlapping_report Sample.calc) = 12).
Proof.
  split; [vm_compute; reflexivity|split].
  - intros [_ H].
    assert (Ho : optimized
              (read_report Sample.overlapping_report Sample.calc) = false)
      by (vm_compute; reflexivity).
    rewrite H in Ho; [discriminate|].
    exists "  Total lattice energy       =         -61.960000 eV  Job Finished".
    split; [apply list_elem_of_lookup; by exists 0%nat|].
    vm_compute. reflexivity.
  - exists "  Step 12 Cycle: 5 Energy:       -61.960000",
      ["Step"; "12"], ["Energy:"; "-61.960000"].
    split; [apply list_elem_of_lookup; by exists 1%nat|].
    split; [vm_compute; reflexivity|].
    split; [vm_compute; reflexivity|].
    split; [reflexivity|].
    vm_compute. reflexivity.
Qed.

Ltac none_later := apply none_later_check; vm_compute; reflexivity.

Ltac table :=
  split; [repeat constructor|];
  eexists _, _; split; reflexivity.

(** the geometry of the sample report *)
Lemma read_geometry_witness :
  frac_coords (read_report Sample.report Sample.calc) =
    [[Sample.DVal 250000; Sample.DVal 250000; Sample.DVal 250000];
     [Sample.DVal 750000; Sample.DVal 750000; Sample.DVal 750000]]
  ∧ lattice (read_report Sample.report Sample.calc) =
    [[Sample.DVal 3500000; Sample.DVal 0; Sample.DVal 0];
     [Sample.DVal 0; Sample.DVal 3600000; Sample.DVal 0];
     [Sample.DVal 0; Sample.DVal 0; Sample.DVal 3700000]].
Proof.
  refine (proj2 (proj2
    (read_geometry Sample.report Sample.calc
       4 "  Final fractional coordinates of atoms :"
       [ "     1  C     c     0.250000    0.250000    0.250000    0.000000";
         "     2  C     c     0.750000    0.750000    0.750000    0.000000" ]
       [[Sample.DVal 250000; Sample.DVal 250000; Sample.DVal 250000];
        [Sample.DVal 750000; Sample.DVal 750000; Sample.DVal 750000]]
       13 "  Final Cartesian lattice vectors (Angstroms) :"
       [[Sample.DVal 3500000; Sample.DVal 0; Sample.DVal 0];
        [Sample.DVal 0; Sample.DVal 3600000; Sample.DVal 0];
        [Sample.DVal 0; Sample.DVal 0; Sample.DVal 3700000]]
       _ _ _ _ _ _ _ _ _)) _ _ _ _).
  - reflexivity.
  - vm_compute. reflexivity.
  - table.
  - repeat constructor; do 10 eexists; repeat split; reflexivity.
  - reflexivity.
  - vm_compute. reflexivity.
  - do 6 eexists. repeat split; try reflexivity;
      do 7 eexists; repeat split; reflexivity.
  - reflexivity.
  - none_later.
  - none_later.
  - reflexivity.
  - vm_compute. reflexivity.
Defined.

(** the forces of the sample report: its three atom lines are merged in
    the three possible ways *)
Lemma read_forces_witness :
  forces (read_report Sample.report Sample.calc) =
    Some [[Sample.DVal (-100000); Sample.DVal 200000; Sample.DVal (-300000)];
          [Sample.DVal 100000; Sample.DVal (-200000); Sample.DVal 300000];
          [Sample.DVal (-1500000); Sample.DVal 2500000; Sample.DVal 3500000]].
Proof.
  refine (proj2 (proj2 (proj2
    (read_forces Sample.report Sample.calc
       18 "  Final internal derivatives :"
       [ "     1  C     c       0.100000-0.200000      0.300000      0.000000";
         "     2  C     c      -0.100000      0.200000-0.300000      0.000000";
         "     3  C     c       1.500000-2.500000-3.500000      0.000000" ]
       _ _ _ _ _))) _ _ _).
  - reflexivity.
  - vm_compute. reflexivity.
  - table.
  - constructor; [|constructor; [|constructor; [|constructor]]].
    + exists "1", "C", "c", ["0.100000-0.200000"; "0.300000"; "0.000000"],
        "0.100000", "-0.200000", "0.300000".
      do 3 eexists. split; [reflexivity|]. split.
      { refine (columns_xy "0.100000" "-0.200000" "0.300000" ["0.000000"] _).
        eexists. reflexivity. }
      repeat split; (reflexivity || discriminate).
    + exists "2", "C", "c", ["-0.100000"; "0.200000-0.300000"; "0.000000"],
        "-0.100000", "0.200000", "-0.300000".
      do 3 eexists. split; [reflexivity|]. split.
      { refine (columns_yz "-0.100000" "0.200000" "-0.300000" ["0.000000"] _).
        eexists. reflexivity. }
      repeat split; (reflexivity || discriminate).
    + exists "3", "C", "c", ["1.500000-2.500000-3.500000"; "0.000000"],
        "1.500000", "-2.500000", "-3.500000".
      do 3 eexists. split; [reflexivity|]. split.
      { refine (columns_xyz "1.500000" "-2.500000" "-3.500000" ["0.000000"]
                  _ _); eexists; reflexivity. }
      repeat split; (reflexivity || discriminate).
  - none_later.
  - reflexivity.
  - vm_compute. reflexivity.
Defined.


(** a run of the sample calculator with [clean=True] *)
Lemma run_sequence_witness :
  ∃ g' s', run Sample.calc true Sample.start_tmp = (Ok g', s') ∧
    s'.2 = [EvWrite "tmp/_gulp.in" (deck_text Sample.calc);
            EvSystem "gulp<tmp/_gulp.in>tmp/_gulp.log";
            EvReadlines "tmp/_gulp.log";
            EvRemove "tmp/_gulp.in"; EvRemove "tmp/_gulp.log"].
Proof.
  pose (r := run Sample.calc true Sample.start_tmp).
  assert (E : r = (Ok (get Sample.calc r.1), r.2)).
  { apply returns_get. vm_compute. reflexivity. }
  exists (get Sample.calc r.1), r.2. split; [exact E|].
  exact (proj1 (proj1 (proj2
           (run_sequence Sample.calc true Sample.tmp_world []))
           (get Sample.calc r.1) r.2 E)).
Defined.

(** the one invocation of a run of the sample calculator *)
Lemma run_invokes_once_witness :
  ∃ calls, (run Sample.calc true Sample.start_tmp).2.2 = calls ∧
           invocations calls = 1%nat.
Proof.
  destruct (run_invokes_once (Sys := Sample.os) Sample.calc true
              Sample.tmp_world [])
    as (calls & Htr & _ & Hone).
  exists calls. split; [exact Htr|].
  apply Hone. vm_compute. reflexivity.
Defined.

(** one stage; two stages, the second failing; two stages that succeed *)
Lemma drivers_spec_witness :
  (∃ o s', single_optimize (AtomsObj Sample.diamond) "tersoff.lib" "conp"
             "gulp" "tmp" "_" true Sample.start = (Ok o, s') ∧
           out_error o = false)
  ∧ (∃ s', optimize (AtomsObj Sample.diamond) "tersoff.lib" ["conp"; "conv"]
             "gulp" "tmp" "_" true Sample.start = (Ok failure, s'))
  ∧ (∃ o s', optimize (AtomsObj Sample.diamond) "tersoff.lib" ["conp"; "conp"]
               "gulp" "tmp" "_" true Sample.start = (Ok o, s') ∧
             out_error o = false).
Proof.
  pose proof (drivers_spec "tersoff.lib" "gulp" "tmp" "_")
    as (Hsingle & Hfail & Hlast).
  assert (E1 : Sample.stage1 = (Ok (get failure Sample.stage1.1), Sample.stage1.2)).
  { apply returns_get. vm_compute. reflexivity. }
  assert (Ho1 : out_error (get failure Sample.stage1.1) = false).
  { vm_compute. reflexivity. }
  split; [|split].
  - assert (Ei : Sample.built
                 = (Ok (get Sample.calc Sample.built.1), Sample.built.2)).
    { apply returns_get. vm_compute. reflexivity. }
    assert (Er : Sample.ran = (Ok (get Sample.calc Sample.ran.1), Sample.ran.2)).
    { apply returns_get. vm_compute. reflexivity. }
    assert (Ep : to_pyxtal (get Sample.calc Sample.ran.1)
                 = Ok (get (Sample.diamond : @pyxtal _ Sample.libs)
                         (to_pyxtal (get Sample.calc Sample.ran.1)))).
    { apply is_ok_get. vm_compute. reflexivity. }
    assert (Herr : error (get Sample.calc Sample.ran.1) = false).
    { vm_compute. reflexivity. }
    eexists _, Sample.ran.2. split.
    + exact (proj1 (proj2 (Hsingle (AtomsObj Sample.diamond) "conp" true
                             Sample.start _ _ _ _ Ei Er)) _ Herr Ep).
    + reflexivity.
  - assert (E2 : Sample.stage2_conv
                 = (Ok (get failure Sample.stage2_conv.1), Sample.stage2_conv.2)).
    { apply returns_get. vm_compute. reflexivity. }
    assert (Ho2 : out_error (get failure Sample.stage2_conv.1) = true).
    { vm_compute. reflexivity. }
    exists Sample.stage2_conv.2.
    refine (Hfail (AtomsObj Sample.diamond) ["conp"] "conv" [] true
              Sample.start [get failure Sample.stage1.1] Sample.stage1.2
              _ _ _ E2 Ho2).
    exact (stages_cons _ _ _ _ "conp" [] _ _ _ _ [] _ E1 Ho1
             (stages_nil _ _ _ _ _ _)).
  - assert (E2 : Sample.stage2
                 = (Ok (get failure Sample.stage2.1), Sample.stage2.2)).
    { apply returns_get. vm_compute. reflexivity. }
    assert (Ho2 : out_error (get failure Sample.stage2.1) = false).
    { vm_compute. reflexivity. }
    eexists _, Sample.stage2.2. split.
    + refine (Hlast (AtomsObj Sample.diamond) ["conp"; "conp"] true
                Sample.start
                [get failure Sample.stage1.1; get failure Sample.stage2.1]
                Sample.stage2.2 (get failure Sample.stage2.1) _ eq_refl).
      exact (stages_cons _ _ _ _ "conp" ["conp"] _ _ _ _ _ _ E1 Ho1
               (stages_cons _ _ _ _ "conp" [] _ _ _ _ [] _ E2 Ho2
                  (stages_nil _ _ _ _ _ _))).
    + reflexivity.
Defined.

(** an unclosed forces table *)
Lemma unclosed_table_flagged_witness :
  error (read_report Sample.unclosed_report Sample.calc) = true ∧
  energy (read_report Sample.unclosed_report Sample.calc) = Some (NInt 100000).
Proof.
  apply (unclosed_table_flagged Sample.unclosed_report Sample.calc 0
           "  Final internal derivatives :").
  - reflexivity.
  - left. vm_compute. reflexivity.
  - repeat constructor.
Defined.

(** a stress block of one line *)
Lemma short_block_flagged_witness :
  error (read_report Sample.short_stress_report Sample.calc) = true ∧
  energy (read_report Sample.short_stress_report Sample.calc)
  = Some (NInt 100000).
Proof.
  apply (short_block_flagged Sample.short_stress_report Sample.calc 0
           "  Final stress tensor components (kbar):").
  - reflexivity.
  - left. split; [vm_compute; reflexivity|simpl; lia].
Defined.

(** the sample report read by a calculator that failed before *)
Lemma read_flags_sticky_witness :
  error (read_report Sample.report
           (read_report Sample.broken_report Sample.calc)) = true ∧
  optimized (read_report Sample.broken_report
               (read_report Sample.report Sample.calc)) = true ∧
  energy (read_report Sample.broken_report Sample.calc) = Some (NInt 100000).
Proof.
  split; [|split].
  - apply (proj1 (read_flags_sticky Sample.report
                    (read_report Sample.broken_report Sample.calc))).
    vm_compute. reflexivity.
  - apply (proj1 (proj2 (read_flags_sticky Sample.broken_report
                           (read_report Sample.report Sample.calc)))).
    vm_compute. reflexivity.
  - apply (proj2 (proj2 (read_flags_sticky Sample.broken_report Sample.calc))).
    + reflexivity.
    + vm_compute. reflexivity.
Defined.

(** a report without geometry *)
Lemma read_without_block_witness :
  frac_coords (read_report Sample.broken_report Sample.calc)
  = frac_coords Sample.calc ∧
  forces (read_report Sample.broken_report Sample.calc) = None.
Proof.
  assert (Hno : ∀ K, K = KFracCoords ∨ K = KForces →
            ∀ l, l ∈ Sample.broken_report → line_kind l ≠ K).
  { intros K HK l Hl. unfold Sample.broken_report in Hl.
    rewrite !elem_of_cons, elem_of_nil in Hl.
    destruct Hl as [->|[->|[->|[]]]]; intros H; vm_compute in H;
      destruct HK as [-> | ->]; discriminate H. }
  pose proof (read_without_block Sample.broken_report Sample.calc)
    as (Hfrac & _ & Hforces & _).
  split.
  - apply Hfrac, Hno. by left.
  - apply Hforces, Hno. by right.
Defined.

(** the energy line of the sample report *)
Lemma energy_group_sound_witness :
  all_chars Re.non_space "-61.960000" = true ∧
  Str.contains "  Total lattice energy       =         -61.960000 eV"
    "Total lattice energy" = true.
Proof.
  destruct (energy_group_sound
              "  Total lattice energy       =         -61.960000 eV"
              "-61.960000") as (_ & Hns & Hc & _).
  - reflexivity.
  - split; assumption.
Defined.

(** an energy line put together from its parts *)
Lemma energy_line_matches_witness :
  Re.total_lattice_energy "  Total lattice energy   = -61.960000 eV (per cell)"
  = Some "-61.960000".
Proof.
  apply (energy_line_matches "  " "   " " " "-61.960000" " " EmptyString
           " (per cell)"); try reflexivity.
  discriminate.
Defined.

(** the run of a calculator whose second site has two coordinates *)
Lemma short_row_stops_run_witness :
  (deck_writes Sample.short_calc).2 = Some IndexError ∧
  is_ok (run Sample.short_calc true Sample.start_tmp).1 = false ∧
  (run Sample.short_calc true Sample.start_tmp).2.2
  = [EvWrite "tmp/_gulp.in" (deck_text Sample.short_calc)].
Proof.
  destruct (short_row_stops_run (Sys := Sample.os) Sample.short_calc true Sample.tmp_world [] 1
              [Sample.DVal 250000; Sample.DVal 250000] "C")
    as (Hd & _ & Hok & Htr & _).
  - reflexivity.
  - reflexivity.
  - simpl. lia.
  - split; [exact Hd|]. split; [exact Hok|exact Htr].
Defined.

(** the calculator built for the diamond cell *)
Lemma init_stores_arguments_witness :
  input (get Sample.calc Sample.built.1) = "tmp/_gulp.in" ∧
  output (get Sample.calc Sample.built.1) = "tmp/_gulp.log" ∧
  exe (get Sample.calc Sample.built.1) = "gulp".
Proof.
  assert (Ei : Sample.built
               = (Ok (get Sample.calc Sample.built.1), Sample.built.2)).
  { apply returns_get. vm_compute. reflexivity. }
  destruct (proj2 (init_stores_arguments (Sys := Sample.os)
                     (@AtomsObj Sample.dec_float Sample.libs Sample.diamond) "_" "tmp"
                     "tersoff.lib" "conp" 1000 "gulp" "gulp.in" "gulp.log"
                     None Sample.empty_world []) _ _ Ei)
    as (_ & _ & _ & _ & _ & Hexe & _ & Hin & Hout & _).
  split; [exact Hin|]. split; [exact Hout|exact Hexe].
Defined.


(** the invocations of two stages *)
Lemma optimize_invocations_witness :
  ∃ calls, Sample.two_stages.2.2 = calls ∧ (invocations calls ≤ 2)%nat ∧
    EvSystem "gulp<tmp/_gulp.in>tmp/_gulp.log" ∈ calls.
Proof.
  destruct (optimize_invocations (Sys := Sample.os)
              (@AtomsObj Sample.dec_float Sample.libs Sample.diamond) "tersoff.lib"
              ["conp"; "conp"] "gulp" "tmp" "_" true Sample.empty_world [])
    as (_ & calls & Htr & Hinv & Hcmd).
  exists calls. split; [exact Htr|]. split; [exact Hinv|].
  change (Sample.two_stages.2.2 = calls) in Htr.
  assert (Hin : ∃ cmd, EvSystem cmd ∈ calls) .
  { exists "gulp<tmp/_gulp.in>tmp/_gulp.log". rewrite <- Htr.
    apply (list_elem_of_lookup_2 _ 3%nat). vm_compute. reflexivity. }
  destruct Hin as [cmd Hin]. rewrite (Hcmd cmd Hin) in Hin. exact Hin.
Defined.

(** the CPU time of the report cut short *)
Lemma unparsable_value_flagged_witness :
  error (read_report Sample.broken_report Sample.calc) = true ∧
  energy (read_report Sample.broken_report Sample.calc) = Some (NInt 100000).
Proof.
  apply (unparsable_value_flagged Sample.broken_report Sample.calc 1
           "  Total CPU time       ********").
  - reflexivity.
  - right. left. split; [vm_compute; reflexivity|].
    intros tok Ht. vm_compute in Ht. injection Ht as <-. reflexivity.
Defined.

(** the field of asterisks in a forces table *)
Lemma bad_row_flagged_witness :
  error (read_report Sample.overflow_report Sample.calc) = true ∧
  energy (read_report Sample.overflow_report Sample.calc) = Some (NInt 100000).
Proof.
  apply (bad_row_flagged Sample.overflow_report Sample.calc 0
           "  Final internal derivatives :"
           ["     1  C     c       0.100000     -0.200000      0.300000      0.000000"]
           "     2  C     c       ********      0.200000      0.300000      0.000000"
           [Sample.rule]).
  - reflexivity.
  - reflexivity.
  - repeat constructor.
  - reflexivity.
  - left. split; vm_compute; reflexivity.
Defined.

(** a run in a world without the executable *)
Lemma unreadable_output_stops_run_witness :
  ∃ s', run (Sys := Sample.os_no_shell) Sample.calc true (Sample.tmp_world, [])
        = (Raise OSError, s').
Proof.
  eexists.
  eapply (unreadable_output_stops_run (Sys := Sample.os_no_shell)
            Sample.calc true Sample.tmp_world []).
  - vm_compute. reflexivity.
  - reflexivity.
  - vm_compute. reflexivity.
Defined.

(** the sample report, read and written again *)
Lemma read_then_write_witness :
  well_shaped (read_report Sample.report Sample.calc) ∧
  (deck_writes (read_report Sample.report Sample.calc)).2 = None.
Proof.
  destruct (read_then_write Sample.report Sample.calc
       4 "  Final fractional coordinates of atoms :"
       [ "     1  C     c     0.250000    0.250000    0.250000    0.000000";
         "     2  C     c     0.750000    0.750000    0.750000    0.000000" ]
       [[Sample.DVal 250000; Sample.DVal 250000; Sample.DVal 250000];
        [Sample.DVal 750000; Sample.DVal 750000; Sample.DVal 750000]])
    as (Hshape & Hdeck & _).
  - reflexivity.
  - vm_compute. reflexivity.
  - table.
  - repeat constructor; do 10 eexists; repeat split; reflexivity.
  - none_later.
  - reflexivity.
  - vm_compute. reflexivity.
  - split; assumption.
Defined.

End SampleRuns.
